(** * Hush Tab: the NBC diagnostic scripts

    A shallow embedding of [analyze_diagnostic.py] and
    [test_nbc_improvements.py]: the grouping of user markers into ad
    periods, the selection of the events of a period, the network
    signal, the confidence the detection test computes for every ad
    period and for the content period, and the mute decision.

    What the scripts print is modelled by the values they print; the
    JSON bundle they load is modelled by its three lists (markers,
    player states, network requests). Timestamps, counters and weights
    are Python integers, hence [Z]. A float is never computed with; the
    one float operation of the detection test, the division in the
    heading of an ad period, is modelled by the exception it can raise. *)

From Stdlib Require Import ZArith String Ascii List Lia Bool Sorted.
From stdpp Require Import base option list strings gmap fin_maps.

Local Open Scope string_scope.
Local Open Scope list_scope.
Local Open Scope Z_scope.

(** ** Python values and control flow *)

Module Py.

(** The exceptions a run can end with. [KeyError] and [IndexError] are
    what a dict or list subscript raises, [OverflowError] what the
    division of two integers raises when the quotient is too large for
    a float. [UnpairedMarkerError] is the error the specification names
    for an odd marker list; it is listed here so that statements about
    it can be written, and no definition below raises it, as no line of
    the scripts does. *)
Inductive exn : Type :=
| KeyError (key : string)
| IndexError
| OverflowError
| UnpairedMarkerError.

Inductive result (A : Type) : Type :=
| Ok (a : A)
| Raise (e : exn).
Global Arguments Ok {A} a.
Global Arguments Raise {A} e.

Global Instance result_ret : MRet result := λ A a, Ok a.
Global Instance result_bind : MBind result := λ A B f m,
  match m with
  | Ok a => f a
  | Raise e => Raise e
  end.

(** [for x in l: s = body s x], stopping at the first exception. *)
Fixpoint for_each {A S : Type} (l : list A) (body : S → A → result S)
    (s : S) : result S :=
  match l with
  | [] => Ok s
  | x :: l' => s' ← body s x; for_each l' body s'
  end.

(** [range(start, stop, step)] for a positive step. *)
Definition range (start stop step : nat) : list nat :=
  (λ k, start + k * step)%nat <$> seq 0 ((stop - start + (step - 1)) / step)%nat.

(** [l[i]] for [i >= 0]. *)
Definition getitem {A : Type} (l : list A) (i : nat) : result A :=
  match l !! i with
  | Some x => Ok x
  | None => Raise IndexError
  end.

(** [d[key]] on a dict with string keys. *)
Definition subscript {V : Type} (d : gmap string V) (key : string) : result V :=
  match d !! key with
  | Some v => Ok v
  | None => Raise (KeyError key)
  end.

(** [sub in s] on strings: [sub] occurs in [s] as a substring. *)
Fixpoint str_in (sub s : string) : bool :=
  if String.prefix sub s then true
  else match s with
       | EmptyString => false
       | String _ s' => str_in sub s'
       end.

(** [sum(1 for x in l if cond(x))]. *)
Definition sum_1_if {A : Type} (cond : A → bool) (l : list A) : Z :=
  foldl (λ acc x, if cond x then acc + 1 else acc) 0 l.

(** Truth value of [d.get(key)] for a boolean entry that may be absent. *)
Definition truthy (v : option bool) : bool :=
  match v with
  | Some b => b
  | None => false
  end.

(** [enumerate(l, start)]. *)
Definition enumerate {A : Type} (l : list A) (start : Z) : list (Z * A) :=
  imap (λ k x, (start + Z.of_nat k, x)) l.

(** The least magnitude that rounds to no float: [2**1024 - 2**970],
    halfway between the largest float and [2**1024]. *)
Definition float_overflow : Z := 2 ^ 1024 - 2 ^ 970.

(** [a / b] on two integers, for [b] other than 0, as far as it raises:
    the result is the float nearest to the exact quotient, and the
    division raises [OverflowError] when the exact quotient is, in
    magnitude, [float_overflow] or more. The float is only printed and is
    not modelled. *)
Definition truediv (a b : Z) : result unit :=
  if float_overflow * Z.abs b <=? Z.abs a then Raise OverflowError else Ok tt.

End Py.
Import Py.

(** ** The diagnostic bundle *)

(** An entry of [data['analysis']['userMarkers']]. *)
Record marker : Type := Marker {
  m_timestamp : Z;
  m_event : string
}.

(** The [nbcPlayer] object of a player state. *)
Record nbc_player : Type := NbcPlayer {
  isShortVideo : option bool;
  adOverlay : option bool;
  adTextFound : option bool;
  seekDisabled : option bool
}.

(** An entry of [data['playerState']]. The floating-point [duration] and
    [currentTime] are only printed and are left out. *)
Record player_state : Type := PlayerState {
  s_timestamp : Z;
  nbcPlayer : option nbc_player
}.

(** An entry of [data['networkRequests']]. *)
Record request : Type := Request {
  r_timestamp : Z;
  url : string;
  isAdRelated : option bool
}.

(** An element of [ad_periods]: the dict with keys ['start'], ['end'] and
    ['duration']. *)
Record period : Type := Period {
  p_start : Z;
  p_end : Z;
  p_duration : Z
}.

(** ** Grouping the markers into ad periods

    The loop is the same in both scripts:
<<
    ad_periods = []
    for i in range(0, len(markers), 2):
        if i + 1 < len(markers):
            ad_periods.append({'start': markers[i]['timestamp'], ...})
>>
*)
Definition ad_periods (markers : list marker) : result (list period) :=
  for_each (range 0 (length markers) 2)
    (λ ad_periods i,
       if bool_decide (i + 1 < length markers)%nat then
         m0 ← getitem markers i;
         m1 ← getitem markers (i + 1);
         mret (ad_periods ++
               [ {| p_start := m_timestamp m0;
                    p_end := m_timestamp m1;
                    p_duration := m_timestamp m1 - m_timestamp m0 |} ])
       else mret ad_periods)
    [].

(** [period['start'] <= t <= period['end']]. *)
Definition in_period (p : period) (t : Z) : bool :=
  (p_start p <=? t) && (t <=? p_end p).

(** ** analyze_diagnostic.py: the events of an ad period *)

Module Analyze.

(** [[s for s in player_states
      if period['start'] <= s['timestamp'] <= period['end']]] *)
Definition states_in_period (player_states : list player_state)
    (p : period) : list player_state :=
  List.filter (λ s, in_period p (s_timestamp s)) player_states.

(** [[r for r in network_requests
      if period['start'] <= r['timestamp'] <= period['end']]] *)
Definition requests_in_period (network_requests : list request)
    (p : period) : list request :=
  List.filter (λ r, in_period p (r_timestamp r)) network_requests.

End Analyze.

(** ** test_nbc_improvements.py: the detection test *)

Module Detection.

(** Weights from improved content-nbc.js. *)
Definition WEIGHTS : gmap string Z :=
  {[ "NETWORK_AD_DETECTED" := 45;
     "PLAYER_CONTROLS_HIDDEN" := 35;
     "PROGRESS_BAR_HIDDEN" := 30;
     "BACK_TO_LIVE_HIDDEN" := 25 ]}.

Definition MUTE_THRESHOLD : Z := 50.

(** What the test reports for one ad period. *)
Record detection : Type := Detection {
  d_idx : Z;
  d_mediatailor_count : Z;
  d_analytics_count : Z;
  d_has_network_signal : bool;
  d_confidence : Z;
  d_signals : list string;
  d_would_mute : bool
}.

(** What the test reports for the content period. [c_not_muted] is the
    test [confidence < MUTE_THRESHOLD] behind "Content not muted". *)
Record content_check : Type := ContentCheck {
  c_start : Z;
  c_end : Z;
  c_mediatailor_count : Z;
  c_analytics_count : Z;
  c_has_network_signal : bool;
  c_confidence : Z;
  c_not_muted : bool
}.

(** The heading of an ad period (line 51), which formats
    [period['duration']/1000]. *)
Definition heading (p : period) : result unit :=
  truediv (p_duration p) 1000.

Section test_nbc_detection.

(** The table and the threshold are constants of the script; they are
    taken as variables here, and [WEIGHTS] and [MUTE_THRESHOLD] are
    the values the script runs with. *)
Variable weights : gmap string Z.
Variable mute_threshold : Z.
Variable player_states : list player_state.
Variable network_requests : list request.

(** [[r for r in network_requests
      if start <= r['timestamp'] <= end and r.get('isAdRelated')]],
    the comprehension of the ad periods and of the content period. *)
Definition ad_related_between (start end_ : Z) : list request :=
  List.filter
    (λ r, (start <=? r_timestamp r) && (r_timestamp r <=? end_)
          && truthy (isAdRelated r))
    network_requests.

Definition ad_requests (p : period) : list request :=
  ad_related_between (p_start p) (p_end p).

Definition mediatailor_count (requests : list request) : Z :=
  sum_1_if (λ r, str_in "mediatailor" (url r)) requests.

Definition analytics_count (requests : list request) : Z :=
  sum_1_if (λ r, str_in "omtrdc.net" (url r)) requests.

(** [states_in_period] of the test: computed, never read. *)
Definition states_in_period (p : period) : list player_state :=
  List.filter (λ s, in_period p (s_timestamp s)) player_states.

(** The confidence calculation of an ad period (lines 76 to 89): the
    network signal adds its weight, and stands in for the DOM state,
    adding the weights of the hidden controls and of the hidden
    back-to-live button. *)
Definition ad_confidence (has_network_signal : bool)
    : result (Z * list string) :=
  let confidence := 0 in
  let signals := [] in
  '(confidence, signals) ←
    (if has_network_signal then
       w ← subscript weights "NETWORK_AD_DETECTED";
       mret (confidence + w, signals ++ ["network-ad-detected"])
     else mret (confidence, signals));
  if has_network_signal then
    w ← subscript weights "PLAYER_CONTROLS_HIDDEN";
    let confidence := confidence + w in
    let signals := signals ++ ["controls-hidden"] in
    w ← subscript weights "BACK_TO_LIVE_HIDDEN";
    mret (confidence + w, signals ++ ["back-to-live-hidden"])
  else mret (confidence, signals).

(** The detection of one ad period: the body of the loop over the ad
    periods after its heading (lines 54 to 99). *)
Definition detect (idx : Z) (p : period) : result detection :=
  let requests := ad_requests p in
  let mediatailor := mediatailor_count requests in
  let analytics := analytics_count requests in
  let has_network_signal := (0 <? mediatailor) || (5 <? analytics) in
  let _ := states_in_period p in
  '(confidence, signals) ← ad_confidence has_network_signal;
  mret {| d_idx := idx;
          d_mediatailor_count := mediatailor;
          d_analytics_count := analytics;
          d_has_network_signal := has_network_signal;
          d_confidence := confidence;
          d_signals := signals;
          d_would_mute := mute_threshold <=? confidence |}.

(** The confidence calculation of the content period (lines 125 to
    127). *)
Definition content_confidence (has_network_signal : bool) : result Z :=
  let confidence := 0 in
  if has_network_signal then
    w ← subscript weights "NETWORK_AD_DETECTED";
    mret (confidence + w)
  else mret confidence.

(** The content period test (lines 106 to 136): [None] when there are
    fewer than two ad periods. *)
Definition content_period_test (periods : list period)
    : result (option content_check) :=
  if bool_decide (2 ≤ length periods)%nat then
    p0 ← getitem periods 0;
    let content_start := p_end p0 in
    p1 ← getitem periods 1;
    let content_end := p_start p1 in
    let content_requests := ad_related_between content_start content_end in
    let mediatailor := mediatailor_count content_requests in
    let analytics := analytics_count content_requests in
    let has_network_signal := (5 <? mediatailor) || (20 <? analytics) in
    confidence ← content_confidence has_network_signal;
    mret (Some {| c_start := content_start;
                  c_end := content_end;
                  c_mediatailor_count := mediatailor;
                  c_analytics_count := analytics;
                  c_has_network_signal := has_network_signal;
                  c_confidence := confidence;
                  c_not_muted := confidence <? mute_threshold |})
  else mret None.

(** The whole run: the detections of the ad periods, in order, and the
    content check. The two subscripts after the grouping are those of
    the configuration printout, the last one that of the summary; every
    ad period is examined after its heading is printed. *)
Definition test_nbc_detection (markers : list marker)
    : result (list detection * option content_check) :=
  periods ← ad_periods markers;
  _ ← subscript weights "NETWORK_AD_DETECTED";
  _ ← subscript weights "PLAYER_CONTROLS_HIDDEN";
  detections ←
    for_each (enumerate periods 1)
      (λ detections '(idx, p),
         _ ← heading p;
         d ← detect idx p;
         mret (detections ++ [d]))
      [];
  content ← content_period_test periods;
  _ ← subscript weights "NETWORK_AD_DETECTED";
  mret (detections, content).

End test_nbc_detection.

End Detection.
Import Detection.

(** ** The mute/unmute state machine *)

Module Machine.

(** Modelled from the spec: the two states of the mute/unmute state
    machine (section 4.4); the machine itself is in the extension's
    content script, which is not among the Python sources. *)
Inductive mute_state : Type :=
| UNMUTED
| MUTED.

(** Modelled from the spec: the two thresholds of the weight table
    (section 3) that the missing state machine reads. *)
Record thresholds : Type := Thresholds {
  muteThreshold : Z;
  unmuteThreshold : Z
}.

(** Modelled from the spec: one scoring result fed to the missing state
    machine, a confidence score with its instant and the active signals
    that produced it. *)
Record sample : Type := Sample {
  timestamp : Z;
  score : Z;
  activeSignals : list string
}.

(** Modelled from the spec: the record of a transition of the missing
    state machine, [{timestamp, triggeringScore, activeSignals}], with
    the states it leaves and enters. *)
Record transition : Type := Transition {
  t_from : mute_state;
  t_to : mute_state;
  t_timestamp : Z;
  triggeringScore : Z;
  t_activeSignals : list string
}.

(** Modelled from the spec: the step of the missing state machine, a
    pure function of the current state and a score to the new state and
    the transition recorded, if any. [UNMUTED → MUTED] fires when the
    score is at least [muteThreshold], [MUTED → UNMUTED] when it is
    below [unmuteThreshold]; any other score is ignored. *)
Definition step (cfg : thresholds) (st : mute_state) (x : sample)
    : mute_state * option transition :=
  match st with
  | UNMUTED =>
      if muteThreshold cfg <=? score x
      then (MUTED, Some (Transition UNMUTED MUTED (timestamp x) (score x) (activeSignals x)))
      else (UNMUTED, None)
  | MUTED =>
      if score x <? unmuteThreshold cfg
      then (UNMUTED, Some (Transition MUTED UNMUTED (timestamp x) (score x) (activeSignals x)))
      else (MUTED, None)
  end.

(** Modelled from the spec: the missing state machine fed a sequence of
    scores, returning the final state and the transitions recorded, in
    order. *)
Fixpoint run (cfg : thresholds) (st : mute_state) (xs : list sample)
    : mute_state * list transition :=
  match xs with
  | [] => (st, [])
  | x :: xs' =>
      let '(st', recorded) := step cfg st x in
      let '(final, rest) := run cfg st' xs' in
      (final, from_option (λ t, [t]) [] recorded ++ rest)
  end.

(** Modelled from the spec: [UNMUTED] is the initial state. *)
Definition initial : mute_state := UNMUTED.

End Machine.

Import Machine.

(** ** More Python: slices, split, insertion-ordered dicts, sorted *)

Module PySeq.

(** [l[::step]] for a positive step: the elements at the indices
    [range(0, len(l), step)]. *)
Definition slice_step {A : Type} (l : list A) (step : nat) : list A :=
  omap (λ i, l !! i) (range 0 (length l) step).

(** [s.split(sep)] for a separator of one character: the pieces between
    the occurrences of [sep], empty pieces included. *)
Fixpoint split (sep : ascii) (s : string) : list string :=
  match s with
  | EmptyString => [EmptyString]
  | String c s' =>
      if Ascii.eqb c sep then EmptyString :: split sep s'
      else match split sep s' with
           | part :: parts => String c part :: parts
           | [] => [String c EmptyString]
           end
  end.

(** A dict from strings to integers, as the list of its items in
    insertion order: the order [items()] and a stable [sorted] see. *)
Abbreviation odict := (list (string * Z)).

(** [d.get(key, default)]. *)
Fixpoint dict_get (d : odict) (key : string) (default : Z) : Z :=
  match d with
  | [] => default
  | (k, v) :: d' => if String.eqb k key then v else dict_get d' key default
  end.

(** [d[key] = v]: the value of an existing key is replaced where it
    stands, a new key is added at the end. *)
Fixpoint dict_set (d : odict) (key : string) (v : Z) : odict :=
  match d with
  | [] => [(key, v)]
  | (k, v') :: d' =>
      if String.eqb k key then (k, v) :: d' else (k, v') :: dict_set d' key v
  end.

(** One step of [sorted_desc]: [x] goes before the first item whose
    count is not above its own. *)
Fixpoint insert_desc (x : string * Z) (l : odict) : odict :=
  match l with
  | [] => [x]
  | y :: l' => if x.2 <? y.2 then y :: insert_desc x l' else x :: y :: l'
  end.

(** [sorted(items, key=lambda x: x[1], reverse=True)]: the items by
    decreasing count, items of equal count in their original order (the
    sort of Python is stable, also with [reverse=True]). *)
Definition sorted_desc (items : odict) : odict :=
  foldr insert_desc [] items.

End PySeq.
Import PySeq.

(** ** analyze_diagnostic.py: what the analysis of an ad period computes

    The sampled player states, the domain of a request, the dict of the
    ad networks and the domains printed. The printouts of lines 46 and
    62, which format floats, and the pattern analysis that follows in
    the script (lines 96 to 123), which compares floating-point
    durations, are not modelled. *)

Module Report.

(** The player states sampled for the printout (lines 55 to 58):
    [states_in_period[::max(1, len(states_in_period)//5)]], of which the
    loop takes [samples[:5]]; nothing when there is no state. *)
Definition samples (states_in_period : list player_state) : list player_state :=
  match states_in_period with
  | [] => []
  | _ :: _ =>
      take 5 (slice_step states_in_period
                (Nat.max 1 (length states_in_period / 5)))
  end.

(** The domain a request is filed under (lines 83 to 89). *)
Definition domain (url : string) : result string :=
  if str_in "mediatailor" url then mret "mediatailor.amazonaws.com"
  else if str_in "omtrdc.net" url then mret "nbcume.hb.omtrdc.net"
  else if bool_decide (2 < length (split "/" url))%nat
       then getitem (split "/" url) 2
       else mret url.

(** The dict [ad_networks] of a period (lines 74 to 91): the number of
    ad-related requests per domain. *)
Definition ad_networks (requests_in_period : list request) : result odict :=
  for_each requests_in_period
    (λ ad_networks req,
       if truthy (isAdRelated req) then
         d ← domain (url req);
         mret (dict_set ad_networks d (dict_get ad_networks d 0 + 1))
       else mret ad_networks)
    [].

(** The domains printed (line 93): the first five of the items sorted
    by decreasing count. *)
Definition top_networks (ad_networks : odict) : odict :=
  take 5 (sorted_desc ad_networks).

End Report.
Import Report.

(** ** Vocabulary of the statements *)

(** The markers taken two at a time, by recursion on the list: what the
    loop of [ad_periods] is shown to return. *)
Fixpoint pair_up (markers : list marker) : list period :=
  match markers with
  | m0 :: m1 :: rest =>
      {| p_start := m_timestamp m0;
         p_end := m_timestamp m1;
         p_duration := m_timestamp m1 - m_timestamp m0 |} :: pair_up rest
  | _ => []
  end.

(** Timestamps in non-decreasing order, marker after marker. *)
Definition nondecreasing (markers : list marker) : Prop :=
  Sorted Z.le (m_timestamp <$> markers).

(** The ad-related requests with a timestamp in [[start, end_]] whose URL
    contains [needle], counted: the number the test calls
    [mediatailor_count] for "mediatailor" and [analytics_count] for
    "omtrdc.net". *)
Definition count_requests (network_requests : list request)
    (start end_ : Z) (needle : string) : Z :=
  Z.of_nat (length (filter
    (λ r, start ≤ r_timestamp r ≤ end_
          ∧ isAdRelated r = Some true
          ∧ str_in needle (url r) = true)
    network_requests)).

(** The sum of all the weights of a table. *)
Definition total_weight (weights : gmap string Z) : Z :=
  map_fold (λ _ w acc, w + acc) 0 weights.

(** A table without negative weights. *)
Definition nonnegative (weights : gmap string Z) : Prop :=
  map_Forall (λ _ w, 0 ≤ w) weights.

(** The content gaps of a list of ad periods: from the end of a period
    to the start of the next one. *)
Fixpoint content_gaps (periods : list period) : list (Z * Z) :=
  match periods with
  | p0 :: rest =>
      match rest with
      | p1 :: _ => (p_end p0, p_start p1) :: content_gaps rest
      | [] => []
      end
  | [] => []
  end.

(** The transitions of [ts] chain from state [st]: each one leaves the
    state the machine is in and enters the other one. *)
Fixpoint alternates_from (st : mute_state) (ts : list transition) : Prop :=
  match ts with
  | [] => True
  | t :: ts' => t_from t = st ∧ t_to t ≠ st ∧ alternates_from (t_to t) ts'
  end.

(** ** Vocabulary of the further properties *)

(** The network signal of the interval of a period, from the counts:
    what the test calls [has_network_signal] for an ad period. *)
Definition network_signal (network_requests : list request) (p : period) : bool :=
  (0 <? count_requests network_requests (p_start p) (p_end p) "mediatailor")
  || (5 <? count_requests network_requests (p_start p) (p_end p) "omtrdc.net").

(** The three weights the test reads. *)
Definition weights_read : list string :=
  ["NETWORK_AD_DETECTED"; "PLAYER_CONTROLS_HIDDEN"; "BACK_TO_LIVE_HIDDEN"].

(** Equality of the results of a run is decidable. *)
Global Instance exn_eq_dec : EqDecision exn.
Proof. solve_decision. Defined.

Global Instance result_eq_dec {A : Type} `{EqDecision A} : EqDecision (result A).
Proof. solve_decision. Defined.

(** The number of ad-related requests of a list. *)
Definition ad_related_count (requests : list request) : Z :=
  Z.of_nat (length (filter (λ r, isAdRelated r = Some true) requests)).

(** The number of ad-related requests of a list that are filed under the
    domain [d]. *)
Definition filed_under (requests : list request) (d : string) : Z :=
  Z.of_nat (length (filter
    (λ r, isAdRelated r = Some true ∧ domain (url r) = Ok d) requests)).

(** The sum of the counts of a dict. *)
Definition sum_counts (d : odict) : Z :=
  foldr (λ x acc, x.2 + acc) 0 d.

(** The order of a list by decreasing count. *)
Definition count_ge (x y : string * Z) : Prop := y.2 ≤ x.2.

(** The duration of a period is small enough for its heading: divided
    by 1000 it rounds to a float. *)
Definition duration_fits (p : period) : Prop :=
  Z.abs (p_duration p) < float_overflow * 1000.


(** ** Sample inputs *)

(** Three markers: an ad period and an unpaired start. *)
Definition three_markers : list marker :=
  [Marker 10 "ad start"; Marker 20 "ad end"; Marker 50 "ad start"].

(** Four markers: two ad periods. *)
Definition four_markers : list marker :=
  [Marker 10 "ad start"; Marker 20 "ad end";
   Marker 50 "ad start"; Marker 70 "ad end"].

(** Six markers: three ad periods and two content gaps. *)
Definition six_markers : list marker :=
  [Marker 10 "ad start"; Marker 20 "ad end";
   Marker 50 "ad start"; Marker 70 "ad end";
   Marker 90 "ad start"; Marker 95 "ad end"].

(** The ad periods of [four_markers]. *)
Definition two_periods : list period := [Period 10 20 10; Period 50 70 20].

(** One ad-related MediaTailor request between the two periods. *)
Definition one_mediatailor_in_gap : list request :=
  [Request 30 "https://x.mediatailor.us-east-1.amazonaws.com/v1/segment" (Some true)].

(** Six ad-related analytics requests and nothing else. *)
Definition six_analytics : list request :=
  (λ t, Request t "https://nbcume.hb.omtrdc.net/b/ss" (Some true))
    <$> [100; 110; 120; 130; 140; 150].

(** An ad-related analytics request at the end of the first period. *)
Definition boundary_request : request :=
  Request 20 "https://nbcume.hb.omtrdc.net/b/ss" (Some true).

(** Four markers: an ad period from 100 to 200, which holds the requests
    of [six_analytics], and one from 300 to 400, which holds none. *)
Definition window_markers : list marker :=
  [Marker 100 "ad start"; Marker 200 "ad end";
   Marker 300 "ad start"; Marker 400 "ad end"].

(** Two markers very far apart. *)
Definition huge_markers : list marker :=
  [Marker 0 "ad start"; Marker (10 ^ 400) "ad end"].

(** Two markers out of order, and the period they give. *)
Definition inverted_markers : list marker :=
  [Marker 200 "ad end"; Marker 100 "ad start"].

Definition inverted_period : period := Period 200 100 (-100).

(** An ad-related analytics request and a player state at the start of
    [inverted_period]. *)
Definition request_at_200 : request :=
  Request 200 "https://nbcume.hb.omtrdc.net/b/ss" (Some true).

Definition state_at_200 : player_state := PlayerState 200 None.

(** * Properties *)

(** ** Runs on the sample inputs *)

Example ad_periods_4 :
  ad_periods [Marker 10 "ad start"; Marker 20 "ad end";
              Marker 50 "ad start"; Marker 70 "ad end"]
  = Ok [Period 10 20 10; Period 50 70 20].
Proof. vm_compute. reflexivity. Qed.

Example detect_six_analytics :
  detect WEIGHTS MUTE_THRESHOLD [] six_analytics 1 (Period 100 200 100)
  = Ok (Detection 1 0 6 true 105
          ["network-ad-detected"; "controls-hidden"; "back-to-live-hidden"] true).
Proof. vm_compute. reflexivity. Qed.

(** ** Python helpers *)

Lemma for_each_fmap {A B S : Type} (f : A → B) (l : list A)
    (body : S → B → result S) (s : S) :
  for_each (f <$> l) body s = for_each l (λ s x, body s (f x)) s.
Proof.
  revert s. induction l as [|x l IH]; intros s; simpl; [done|].
  destruct (body s (f x)); simpl; [apply IH | done].
Qed.

Lemma for_each_ext {A S : Type} (l : list A) (body body' : S → A → result S) s :
  (∀ s x, x ∈ l → body s x = body' s x) →
  for_each l body s = for_each l body' s.
Proof.
  revert s. induction l as [|x l IH]; intros s Hb; simpl; [done|].
  rewrite <- (Hb s x) by constructor.
  destruct (body s x); simpl; [|done].
  apply IH. intros s' y Hy. apply Hb. by constructor.
Qed.

Lemma range_0_SS (n : nat) :
  range 0 (S (S n)) 2 = 0%nat :: ((λ i, i + 2)%nat <$> range 0 n 2).
Proof.
  unfold range.
  replace ((S (S n) - 0 + (2 - 1)) / 2)%nat with (S ((n - 0 + (2 - 1)) / 2)).
  - simpl seq. rewrite <- seq_shift. simpl. f_equal.
    rewrite <- !list_fmap_compose. apply list_fmap_ext.
    intros _ k _. simpl. lia.
  - replace (S (S n) - 0 + (2 - 1))%nat with ((n - 0 + (2 - 1)) + 1 * 2)%nat by lia.
    rewrite Nat.div_add by lia. lia.
Qed.

Lemma sum_1_if_length {A : Type} (cond : A → bool) (l : list A) :
  sum_1_if cond l = Z.of_nat (length (List.filter cond l)).
Proof.
  unfold sum_1_if.
  assert (H : ∀ acc, foldl (λ acc x, if cond x then acc + 1 else acc) acc l
                     = acc + Z.of_nat (length (List.filter cond l))).
  { induction l as [|x l IH]; intros acc; simpl; [lia|].
    rewrite IH. destruct (cond x); simpl; lia. }
  rewrite H. lia.
Qed.

(** ** The ad periods are the markers taken two at a time *)

Lemma ad_periods_loop (n : nat) : ∀ (markers : list marker) (acc : list period),
  (length markers ≤ n)%nat →
  for_each (range 0 (length markers) 2)
    (λ ad_periods i,
       if bool_decide (i + 1 < length markers)%nat then
         m0 ← getitem markers i;
         m1 ← getitem markers (i + 1);
         mret (ad_periods ++
               [ {| p_start := m_timestamp m0;
                    p_end := m_timestamp m1;
                    p_duration := m_timestamp m1 - m_timestamp m0 |} ])
       else mret ad_periods)
    acc
  = Ok (acc ++ pair_up markers).
Proof.
  induction n as [n IH] using lt_wf_ind. intros markers acc Hlen.
  destruct markers as [|m0 [|m1 rest]].
  - simpl. by rewrite app_nil_r.
  - simpl. by rewrite app_nil_r.
  - change (length (m0 :: m1 :: rest)) with (S (S (length rest))).
    rewrite range_0_SS. simpl.
    rewrite for_each_fmap, (cons_middle _ acc (pair_up rest)), (app_assoc acc).
    rewrite <- (IH (length rest)); [| simpl in Hlen; lia | lia].
    apply for_each_ext. intros s i _. cbv beta.
    replace (i + 2 + 1)%nat with (S (S (i + 1))) by lia.
    replace (i + 2)%nat with (S (S i)) by lia.
    destruct (decide (i + 1 < length rest)%nat).
    + rewrite !bool_decide_true by lia. done.
    + rewrite !bool_decide_false by lia. done.
Qed.

Lemma ad_periods_pair_up (markers : list marker) :
  ad_periods markers = Ok (pair_up markers).
Proof. unfold ad_periods. by rewrite (ad_periods_loop (length markers)). Qed.

Lemma pair_up_lookup (i : nat) : ∀ (markers : list marker),
  pair_up markers !! i =
    match markers !! (2 * i)%nat, markers !! (2 * i + 1)%nat with
    | Some m0, Some m1 =>
        Some {| p_start := m_timestamp m0;
                p_end := m_timestamp m1;
                p_duration := m_timestamp m1 - m_timestamp m0 |}
    | _, _ => None
    end.
Proof.
  induction i as [|i IH]; intros [|m0 [|m1 rest]]; try done.
  all: replace (2 * S i)%nat with (S (S (2 * i))) by lia.
  all: replace (S (S (2 * i)) + 1)%nat with (S (S (2 * i + 1))) by lia.
  apply IH.
Qed.

Lemma pair_up_length (n : nat) : ∀ (markers : list marker),
  (length markers = 2 * n ∨ length markers = 2 * n + 1)%nat →
  length (pair_up markers) = n.
Proof.
  induction n as [|n IH]; intros [|m0 [|m1 rest]] H; simpl in *; try lia.
  f_equal. apply IH. lia.
Qed.

Lemma pair_up_take (n : nat) : ∀ (markers : list marker),
  length markers = (2 * n + 1)%nat →
  pair_up (take (2 * n) markers) = pair_up markers.
Proof.
  induction n as [|n IH]; intros [|m0 [|m1 rest]] H; simpl in *; try lia.
  - done.
  - replace (n + S (n + 0))%nat with (S (2 * n)) by lia. simpl.
    f_equal. apply IH. lia.
Qed.

Lemma pair_up_lookup_Some (markers : list marker) (i : nat) (p : period) :
  pair_up markers !! i = Some p →
  ∃ m0 m1, markers !! (2 * i)%nat = Some m0 ∧ markers !! (2 * i + 1)%nat = Some m1
           ∧ p_start p = m_timestamp m0 ∧ p_end p = m_timestamp m1
           ∧ p_duration p = m_timestamp m1 - m_timestamp m0.
Proof.
  rewrite pair_up_lookup.
  destruct (markers !! (2 * i)%nat) as [m0|]; [|done].
  destruct (markers !! (2 * i + 1)%nat) as [m1|]; [|done].
  intros [= <-]. by exists m0, m1.
Qed.

Lemma StronglySorted_le_lookup (ts : list Z) :
  StronglySorted Z.le ts →
  ∀ i j x y, (i ≤ j)%nat → ts !! i = Some x → ts !! j = Some y → x ≤ y.
Proof.
  induction 1 as [|t ts Hs IH Hall]; intros i j x y Hij Hi Hj; [done|].
  destruct i as [|i], j as [|j]; simpl in *; try lia.
  - simplify_eq. lia.
  - simplify_eq. rewrite Forall_lookup in Hall. eauto.
  - apply (IH i j); [lia | done | done].
Qed.

Lemma nondecreasing_lookup (markers : list marker) :
  nondecreasing markers →
  ∀ i j mi mj, (i ≤ j)%nat → markers !! i = Some mi → markers !! j = Some mj →
               m_timestamp mi ≤ m_timestamp mj.
Proof.
  intros Hs i j mi mj Hij Hi Hj.
  apply Sorted_StronglySorted in Hs; [|intros a b c; lia].
  apply (StronglySorted_le_lookup _ Hs i j); [done | |];
    by rewrite list_lookup_fmap, ?Hi, ?Hj.
Qed.

(** ** Claims about the ad periods *)

(** C1, as stated, fails: on three markers the grouping raises nothing,
    [UnpairedMarkerError] or other; it returns the window of the first
    two markers, and the third marker is dropped. *)
Lemma ad_periods_three_markers_no_error :
  Nat.Odd (length three_markers)
  ∧ ad_periods three_markers ≠ Raise UnpairedMarkerError
  ∧ ad_periods three_markers = Ok [Period 10 20 10].
Proof.
  split; [exists 1%nat; reflexivity|].
  split; [by vm_compute | by vm_compute].
Qed.

(** C1, amended: on a marker list of odd length [2n+1] the grouping
    raises no error; it returns the [n] windows of the first [2n]
    markers, the trailing marker taking no part. *)
Theorem ad_periods_odd_drops_last (markers : list marker) (n : nat) :
  length markers = (2 * n + 1)%nat →
  ∃ periods, ad_periods markers = Ok periods
             ∧ ad_periods (take (2 * n) markers) = Ok periods
             ∧ length periods = n.
Proof.
  intros Hlen. exists (pair_up markers).
  rewrite !ad_periods_pair_up, (pair_up_take n) by done.
  split; [done|]. split; [done|].
  apply pair_up_length. by right.
Qed.

Lemma ad_periods_odd_drops_last_witness :
  ∃ periods, ad_periods three_markers = Ok periods
             ∧ ad_periods (take (2 * 1) three_markers) = Ok periods
             ∧ length periods = 1%nat.
Proof. apply (ad_periods_odd_drops_last three_markers 1). reflexivity. Defined.

(** C6: on a marker list of even length [2n] the grouping returns
    exactly [n] windows, and window [i] starts at the timestamp of marker
    [2i] and ends at the timestamp of marker [2i+1]. *)
Theorem ad_periods_even_pairs (markers : list marker) (n : nat) :
  length markers = (2 * n)%nat →
  ∃ periods, ad_periods markers = Ok periods
    ∧ length periods = n
    ∧ ∀ i, (i < n)%nat →
        ∃ m0 m1 p, markers !! (2 * i)%nat = Some m0
                   ∧ markers !! (2 * i + 1)%nat = Some m1
                   ∧ periods !! i = Some p
                   ∧ p_start p = m_timestamp m0
                   ∧ p_end p = m_timestamp m1.
Proof.
  intros Hlen. exists (pair_up markers).
  assert (Hn : length (pair_up markers) = n) by (apply pair_up_length; by left).
  split; [apply ad_periods_pair_up|]. split; [done|].
  intros i Hi.
  destruct (lookup_lt_is_Some_2 (pair_up markers) i) as [p Hp]; [lia|].
  destruct (pair_up_lookup_Some _ _ _ Hp) as (m0 & m1 & H0 & H1 & Hs & He & _).
  by exists m0, m1, p.
Qed.

Lemma ad_periods_even_pairs_witness :
  ∃ periods, ad_periods four_markers = Ok periods
    ∧ length periods = 2%nat
    ∧ ∀ i, (i < 2)%nat →
        ∃ m0 m1 p, four_markers !! (2 * i)%nat = Some m0
                   ∧ four_markers !! (2 * i + 1)%nat = Some m1
                   ∧ periods !! i = Some p
                   ∧ p_start p = m_timestamp m0
                   ∧ p_end p = m_timestamp m1.
Proof. apply (ad_periods_even_pairs four_markers 2). reflexivity. Defined.

(** C7: when the timestamps of the markers are in non-decreasing order,
    every window the grouping returns ends no earlier than it starts, and
    a window ends no later than any later window starts. *)
Theorem ad_periods_sorted_disjoint (markers : list marker) :
  nondecreasing markers →
  ∃ periods, ad_periods markers = Ok periods
    ∧ (∀ p, p ∈ periods → p_start p ≤ p_end p)
    ∧ (∀ i j p q, (i < j)%nat → periods !! i = Some p → periods !! j = Some q →
                  p_end p ≤ p_start q).
Proof.
  intros Hs. exists (pair_up markers).
  split; [apply ad_periods_pair_up|]. split.
  - intros p [i Hp]%list_elem_of_lookup.
    destruct (pair_up_lookup_Some _ _ _ Hp) as (m0 & m1 & H0 & H1 & -> & -> & _).
    apply (nondecreasing_lookup _ Hs (2 * i) (2 * i + 1)); [lia | done | done].
  - intros i j p q Hij Hp Hq.
    destruct (pair_up_lookup_Some _ _ _ Hp) as (_ & m1 & _ & H1 & _ & -> & _).
    destruct (pair_up_lookup_Some _ _ _ Hq) as (m0 & _ & H0 & _ & -> & _ & _).
    apply (nondecreasing_lookup _ Hs (2 * i + 1) (2 * j)); [lia | done | done].
Qed.

Lemma ad_periods_sorted_disjoint_witness :
  ∃ periods, ad_periods four_markers = Ok periods
    ∧ (∀ p, p ∈ periods → p_start p ≤ p_end p)
    ∧ (∀ i j p q, (i < j)%nat → periods !! i = Some p → periods !! j = Some q →
                  p_end p ≤ p_start q).
Proof.
  apply (ad_periods_sorted_disjoint four_markers).
  unfold nondecreasing, four_markers. simpl.
  repeat (constructor; try lia).
Defined.

(** ** The detection test under the script's configuration *)

Lemma ad_confidence_WEIGHTS (has_network_signal : bool) :
  ad_confidence WEIGHTS has_network_signal =
    Ok (if has_network_signal
        then (105, ["network-ad-detected"; "controls-hidden"; "back-to-live-hidden"])
        else (0, [])).
Proof. destruct has_network_signal; vm_compute; reflexivity. Qed.

Lemma content_confidence_WEIGHTS (has_network_signal : bool) :
  content_confidence WEIGHTS has_network_signal =
    Ok (if has_network_signal then 45 else 0).
Proof. destruct has_network_signal; vm_compute; reflexivity. Qed.

Lemma sum_1_if_ad_related_between (network_requests : list request)
    (start end_ : Z) (needle : string) :
  sum_1_if (λ r, str_in needle (url r))
    (ad_related_between network_requests start end_)
  = count_requests network_requests start end_ needle.
Proof.
  rewrite sum_1_if_length. unfold count_requests, ad_related_between.
  f_equal. induction network_requests as [|r l IH]; [done|].
  rewrite filter_cons. simpl.
  destruct (Z.leb_spec start (r_timestamp r)),
           (Z.leb_spec (r_timestamp r) end_),
           (isAdRelated r) as [[]|], (str_in needle (url r)) eqn:Hn;
    simpl; rewrite ?Hn; simpl;
    (destruct (decide _) as [Hd|Hd];
     [ try (simpl; by rewrite IH); exfalso; destruct Hd as (? & ? & ?); (lia || congruence)
     | try done; exfalso; apply Hd; repeat split; (lia || done) ]).
Qed.

Lemma detect_WEIGHTS (player_states : list player_state)
    (network_requests : list request) (idx : Z) (p : period) :
  let mediatailor := count_requests network_requests (p_start p) (p_end p) "mediatailor" in
  let analytics := count_requests network_requests (p_start p) (p_end p) "omtrdc.net" in
  let has_network_signal := (0 <? mediatailor) || (5 <? analytics) in
  detect WEIGHTS MUTE_THRESHOLD player_states network_requests idx p =
    Ok {| d_idx := idx;
          d_mediatailor_count := mediatailor;
          d_analytics_count := analytics;
          d_has_network_signal := has_network_signal;
          d_confidence := if has_network_signal then 105 else 0;
          d_signals :=
            if has_network_signal
            then ["network-ad-detected"; "controls-hidden"; "back-to-live-hidden"]
            else [];
          d_would_mute := has_network_signal |}.
Proof.
  intros. unfold detect, mediatailor_count, analytics_count, ad_requests.
  rewrite !sum_1_if_ad_related_between, ad_confidence_WEIGHTS.
  fold mediatailor analytics has_network_signal.
  by destruct has_network_signal.
Qed.

Lemma content_period_test_WEIGHTS (network_requests : list request)
    (p0 p1 : period) (rest : list period) :
  let mediatailor := count_requests network_requests (p_end p0) (p_start p1) "mediatailor" in
  let analytics := count_requests network_requests (p_end p0) (p_start p1) "omtrdc.net" in
  let has_network_signal := (5 <? mediatailor) || (20 <? analytics) in
  content_period_test WEIGHTS MUTE_THRESHOLD network_requests (p0 :: p1 :: rest) =
    Ok (Some {| c_start := p_end p0;
                c_end := p_start p1;
                c_mediatailor_count := mediatailor;
                c_analytics_count := analytics;
                c_has_network_signal := has_network_signal;
                c_confidence := if has_network_signal then 45 else 0;
                c_not_muted := true |}).
Proof.
  intros. unfold content_period_test, mediatailor_count, analytics_count.
  rewrite bool_decide_true by (simpl; lia). simpl.
  rewrite !sum_1_if_ad_related_between, content_confidence_WEIGHTS.
  fold mediatailor analytics has_network_signal.
  by destruct has_network_signal.
Qed.

(** ** Claims about the network signal and the confidence *)

(** C2, as stated, fails: in the content period between two ad periods,
    one ad-delivery (MediaTailor) request is counted and the network
    signal of the content period is not active, although the count is
    above 0. *)
Lemma content_signal_needs_more_than_one :
  ∃ c, content_period_test WEIGHTS MUTE_THRESHOLD one_mediatailor_in_gap two_periods
       = Ok (Some c)
     ∧ c_mediatailor_count c = 1
     ∧ ¬ (c_has_network_signal c = true
          ↔ (0 < c_mediatailor_count c ∨ 5 < c_analytics_count c)).
Proof.
  eexists. split; [by vm_compute|]. split; [done|].
  simpl. intros [_ H]. discriminate H. left. lia.
Qed.

(** C2, amended: in every ad period the network signal is active if and
    only if the count of ad-related MediaTailor requests of the period is
    above 0 or the count of ad-related analytics (omtrdc.net) requests is
    above 5; in the content period between the first two ad periods the
    test applies higher bounds, the signal being active if and only if
    the MediaTailor count is above 5 or the analytics count above 20. *)
Theorem network_signal_rules (player_states : list player_state)
    (network_requests : list request) :
  (∀ idx p, ∃ d,
      detect WEIGHTS MUTE_THRESHOLD player_states network_requests idx p = Ok d
      ∧ (d_has_network_signal d = true
         ↔ 0 < count_requests network_requests (p_start p) (p_end p) "mediatailor"
           ∨ 5 < count_requests network_requests (p_start p) (p_end p) "omtrdc.net"))
  ∧ (∀ p0 p1 rest, ∃ c,
      content_period_test WEIGHTS MUTE_THRESHOLD network_requests (p0 :: p1 :: rest)
        = Ok (Some c)
      ∧ (c_has_network_signal c = true
         ↔ 5 < count_requests network_requests (p_end p0) (p_start p1) "mediatailor"
           ∨ 20 < count_requests network_requests (p_end p0) (p_start p1) "omtrdc.net")).
Proof.
  split.
  - intros idx p. eexists. split; [apply detect_WEIGHTS|]. simpl.
    rewrite orb_true_iff, !Z.ltb_lt. done.
  - intros p0 p1 rest. eexists. split; [apply content_period_test_WEIGHTS|]. simpl.
    rewrite orb_true_iff, !Z.ltb_lt. done.
Qed.

(** C3, as stated, fails: an ad period whose requests are exactly six
    analytics requests does not score 45 and is not left unmuted; the
    test has no input for the DOM signals and adds the weights of two of
    them whenever the network signal is active, so the period scores 105
    and would be muted. *)
Lemma six_analytics_not_45 :
  ∃ d, detect WEIGHTS MUTE_THRESHOLD [] six_analytics 1 (Period 100 200 100) = Ok d
     ∧ d_mediatailor_count d = 0
     ∧ d_analytics_count d = 6
     ∧ d_confidence d ≠ 45
     ∧ d_would_mute d ≠ false.
Proof. eexists. split; [by vm_compute|]. by repeat split. Qed.

(** C3, amended: under the script's configuration (weights 45, 35, 30
    and 25, mute threshold 50, analytics bound 5), an ad period with
    exactly six ad-related analytics requests and no MediaTailor request
    has the network signal active; the test takes that signal as a proxy
    for the hidden controls and the hidden back-to-live button, so the
    confidence is 45 + 35 + 25 = 105 and the period would be muted. *)
Theorem six_analytics_scores_105 (player_states : list player_state)
    (network_requests : list request) (idx : Z) (p : period) :
  count_requests network_requests (p_start p) (p_end p) "mediatailor" = 0 →
  count_requests network_requests (p_start p) (p_end p) "omtrdc.net" = 6 →
  ∃ d, detect WEIGHTS MUTE_THRESHOLD player_states network_requests idx p = Ok d
     ∧ d_has_network_signal d = true
     ∧ d_confidence d = 105
     ∧ d_signals d = ["network-ad-detected"; "controls-hidden"; "back-to-live-hidden"]
     ∧ d_would_mute d = true.
Proof.
  intros Hm Ha. eexists. split; [apply detect_WEIGHTS|].
  simpl. rewrite Hm, Ha. by repeat split.
Qed.

Lemma six_analytics_scores_105_witness :
  ∃ d, detect WEIGHTS MUTE_THRESHOLD [] six_analytics 1 (Period 100 200 100) = Ok d
     ∧ d_has_network_signal d = true
     ∧ d_confidence d = 105
     ∧ d_signals d = ["network-ad-detected"; "controls-hidden"; "back-to-live-hidden"]
     ∧ d_would_mute d = true.
Proof.
  apply (six_analytics_scores_105 [] six_analytics 1 (Period 100 200 100));
    vm_compute; reflexivity.
Defined.

(** ** Claims about the confidence as a function of the weight table *)

Lemma total_weight_delete (weights : gmap string Z) (key : string) (w : Z) :
  weights !! key = Some w →
  total_weight weights = w + total_weight (delete key weights).
Proof.
  intros H. unfold total_weight.
  apply (map_fold_delete_L (λ _ w acc, w + acc)); [|done].
  intros. lia.
Qed.

Lemma total_weight_nonneg (weights : gmap string Z) :
  nonnegative weights → 0 ≤ total_weight weights.
Proof.
  unfold total_weight, nonnegative.
  apply (map_fold_weak_ind (λ r m, map_Forall (λ _ w, 0 ≤ w) m → 0 ≤ r)).
  - lia.
  - intros key w m r Hnone IH Hall.
    apply map_Forall_insert in Hall as [Hw Hm]; [|done].
    specialize (IH Hm). lia.
Qed.

Lemma three_weights_le_total (weights : gmap string Z) (k1 k2 k3 : string)
    (w1 w2 w3 : Z) :
  nonnegative weights →
  k1 ≠ k2 → k1 ≠ k3 → k2 ≠ k3 →
  weights !! k1 = Some w1 → weights !! k2 = Some w2 → weights !! k3 = Some w3 →
  0 ≤ w1 ∧ 0 ≤ w2 ∧ 0 ≤ w3 ∧ w1 + w2 + w3 ≤ total_weight weights.
Proof.
  intros Hnn H12 H13 H23 H1 H2 H3.
  pose proof (Hnn _ _ H1). pose proof (Hnn _ _ H2). pose proof (Hnn _ _ H3).
  rewrite (total_weight_delete weights k1 w1) by done.
  rewrite (total_weight_delete (delete k1 weights) k2 w2)
    by (by rewrite lookup_delete_ne).
  rewrite (total_weight_delete (delete k2 (delete k1 weights)) k3 w3)
    by (by rewrite !lookup_delete_ne).
  assert (0 ≤ total_weight (delete k3 (delete k2 (delete k1 weights)))).
  { apply total_weight_nonneg. unfold nonnegative.
    by do 3 apply map_Forall_delete. }
  simpl in *. lia.
Qed.

(** What the confidence calculation of an ad period returns when the
    network signal is active. *)
Lemma ad_confidence_true (weights : gmap string Z) :
  match ad_confidence weights true with
  | Ok (confidence, signals) =>
      ∃ w1 w2 w3,
        weights !! "NETWORK_AD_DETECTED" = Some w1
        ∧ weights !! "PLAYER_CONTROLS_HIDDEN" = Some w2
        ∧ weights !! "BACK_TO_LIVE_HIDDEN" = Some w3
        ∧ confidence = w1 + w2 + w3
        ∧ signals = ["network-ad-detected"; "controls-hidden"; "back-to-live-hidden"]
  | Raise e => ∃ key, e = KeyError key ∧ weights !! key = None
  end.
Proof.
  unfold ad_confidence, subscript.
  destruct (weights !! "NETWORK_AD_DETECTED") as [w1|] eqn:H1; simpl; [|by eauto].
  destruct (weights !! "PLAYER_CONTROLS_HIDDEN") as [w2|] eqn:H2; simpl; [|by eauto].
  destruct (weights !! "BACK_TO_LIVE_HIDDEN") as [w3|] eqn:H3; simpl; [|by eauto].
  exists w1, w2, w3. repeat split; try done.
Qed.

Lemma ad_confidence_false (weights : gmap string Z) :
  ad_confidence weights false = Ok (0, []).
Proof. reflexivity. Qed.

Lemma nonnegative_WEIGHTS : nonnegative WEIGHTS.
Proof.
  unfold nonnegative, WEIGHTS.
  repeat (apply map_Forall_insert_2; [lia|]).
  apply map_Forall_empty.
Defined.

(** C4: for every weight table without negative weights and for either
    value of the network signal, the confidence the test computes, for an
    ad period and for the content period, lies between 0 and the sum of
    all the weights of the table; the only other outcome is the
    [KeyError] of a weight the table lacks. *)
Theorem confidence_bounded (weights : gmap string Z) (has_network_signal : bool) :
  nonnegative weights →
  match ad_confidence weights has_network_signal with
  | Ok (confidence, _) => 0 ≤ confidence ≤ total_weight weights
  | Raise e => ∃ key, e = KeyError key ∧ weights !! key = None
  end
  ∧ match content_confidence weights has_network_signal with
    | Ok confidence => 0 ≤ confidence ≤ total_weight weights
    | Raise e => ∃ key, e = KeyError key ∧ weights !! key = None
    end.
Proof.
  intros Hnn. pose proof (total_weight_nonneg _ Hnn) as Htot.
  destruct has_network_signal.
  - split.
    + pose proof (ad_confidence_true weights) as H.
      destruct (ad_confidence weights true) as [[confidence signals]|e]; [|done].
      destruct H as (w1 & w2 & w3 & H1 & H2 & H3 & -> & _).
      assert (0 ≤ w1 ∧ 0 ≤ w2 ∧ 0 ≤ w3 ∧ w1 + w2 + w3 ≤ total_weight weights)
        by (eapply three_weights_le_total; [done | | | | done | done | done]; done).
      lia.
    + unfold content_confidence, subscript.
      destruct (weights !! "NETWORK_AD_DETECTED") as [w1|] eqn:H1; simpl; [|by eauto].
      pose proof (Hnn _ _ H1). simpl in *.
      rewrite (total_weight_delete weights _ w1 H1).
      assert (0 ≤ total_weight (delete "NETWORK_AD_DETECTED" weights)).
      { apply total_weight_nonneg. by apply map_Forall_delete. }
      lia.
  - simpl. lia.
Qed.

Lemma confidence_bounded_witness :
  match ad_confidence WEIGHTS true with
  | Ok (confidence, _) => 0 ≤ confidence ≤ total_weight WEIGHTS
  | Raise e => ∃ key, e = KeyError key ∧ WEIGHTS !! key = None
  end
  ∧ match content_confidence WEIGHTS true with
    | Ok confidence => 0 ≤ confidence ≤ total_weight WEIGHTS
    | Raise e => ∃ key, e = KeyError key ∧ WEIGHTS !! key = None
    end.
Proof. apply (confidence_bounded WEIGHTS true). apply nonnegative_WEIGHTS. Defined.

(** C5: for every weight table without negative weights, when the
    signals active in one confidence calculation are all active in
    another, the first confidence is at most the second: an additional
    active signal never lowers the confidence. *)
Theorem confidence_monotone (weights : gmap string Z) (b1 b2 : bool)
    (confidence1 confidence2 : Z) (signals1 signals2 : list string) :
  nonnegative weights →
  ad_confidence weights b1 = Ok (confidence1, signals1) →
  ad_confidence weights b2 = Ok (confidence2, signals2) →
  signals1 ⊆ signals2 →
  confidence1 ≤ confidence2.
Proof.
  intros Hnn E1 E2 Hsub.
  pose proof (ad_confidence_true weights) as Ht.
  destruct b1, b2.
  - rewrite E1 in E2. simplify_eq. lia.
  - rewrite E1 in Ht. destruct Ht as (_ & _ & _ & _ & _ & _ & _ & ->).
    rewrite ad_confidence_false in E2. simplify_eq.
    exfalso. apply (not_elem_of_nil "network-ad-detected"), Hsub. by left.
  - rewrite E2 in Ht. destruct Ht as (w1 & w2 & w3 & H1 & H2 & H3 & -> & _).
    rewrite ad_confidence_false in E1. simplify_eq.
    pose proof (Hnn _ _ H1). pose proof (Hnn _ _ H2). pose proof (Hnn _ _ H3).
    simpl in *. lia.
  - rewrite E1 in E2. simplify_eq. lia.
Qed.

Lemma confidence_monotone_witness :
  ad_confidence WEIGHTS false = Ok (0, [])
  ∧ ad_confidence WEIGHTS true
    = Ok (105, ["network-ad-detected"; "controls-hidden"; "back-to-live-hidden"])
  ∧ 0 ≤ 105.
Proof.
  split; [reflexivity|]. split; [vm_compute; reflexivity|].
  apply (confidence_monotone WEIGHTS false true 0 105 []
           ["network-ad-detected"; "controls-hidden"; "back-to-live-hidden"]).
  - apply nonnegative_WEIGHTS.
  - reflexivity.
  - vm_compute. reflexivity.
  - intros x Hx. inversion Hx.
Defined.

(** ** Claims about the content period *)

(** C8, as stated, fails: on six markers there are three ad periods and
    two content gaps, and the run reports one content check, on the first
    gap; the second gap, from 70 to 90, is not examined. *)
Lemma second_gap_not_checked :
  ∃ periods detections c,
    ad_periods six_markers = Ok periods
    ∧ content_gaps periods = [(20, 50); (70, 90)]
    ∧ test_nbc_detection WEIGHTS MUTE_THRESHOLD [] [] six_markers
      = Ok (detections, Some c)
    ∧ (c_start c, c_end c) = (20, 50)
    ∧ (c_start c, c_end c) ≠ (70, 90).
Proof.
  do 3 eexists. split; [by vm_compute|]. split; [done|].
  split; [by vm_compute|]. done.
Qed.

(** C8, amended: for any number of ad periods from two on, the test
    makes its false-positive check on one content gap, the one between
    the first two ad periods, and the later periods have no part in it;
    the check scores the confidence of that gap and, when the network
    signal of the gap is not active, the confidence is 0 and the content
    is reported as not muted. *)
Theorem content_check_first_gap (network_requests : list request)
    (p0 p1 : period) (rest : list period) :
  ∃ c, content_period_test WEIGHTS MUTE_THRESHOLD network_requests (p0 :: p1 :: rest)
       = Ok (Some c)
     ∧ content_period_test WEIGHTS MUTE_THRESHOLD network_requests [p0; p1]
       = Ok (Some c)
     ∧ c_start c = p_end p0
     ∧ c_end c = p_start p1
     ∧ (c_has_network_signal c = false → c_confidence c = 0 ∧ c_not_muted c = true).
Proof.
  eexists. split; [apply content_period_test_WEIGHTS|].
  split; [apply content_period_test_WEIGHTS|]. simpl.
  split; [done|]. split; [done|]. by intros ->.
Qed.

(** ** Claims about the boundaries of a period *)

Lemma elem_of_List_filter {A : Type} (cond : A → bool) (l : list A) (x : A) :
  x ∈ List.filter cond l ↔ x ∈ l ∧ cond x = true.
Proof. rewrite !list_elem_of_In. apply filter_In. Qed.

Lemma sum_1_if_pos {A : Type} (cond : A → bool) (l : list A) (x : A) :
  x ∈ l → cond x = true → 1 ≤ sum_1_if cond l.
Proof.
  intros Hx Hc. rewrite sum_1_if_length.
  assert (H : x ∈ List.filter cond l) by by apply elem_of_List_filter.
  destruct (List.filter cond l); [by apply not_elem_of_nil in H | simpl; lia].
Qed.

Lemma in_period_boundary (p : period) (t : Z) :
  p_start p ≤ p_end p → t = p_start p ∨ t = p_end p → in_period p t = true.
Proof.
  intros Hp Ht. unfold in_period.
  apply andb_true_iff. rewrite !Z.leb_le. lia.
Qed.

(** C10, as stated, fails: two markers out of order give a period that
    starts at 200 and ends at 100; a player state and an ad-related
    request timestamped 200, the start of that period, are inside it for
    neither script, and the detection of the period counts no request. *)
Lemma boundary_event_outside_inverted_period :
  ad_periods inverted_markers = Ok [inverted_period]
  ∧ s_timestamp state_at_200 = p_start inverted_period
  ∧ r_timestamp request_at_200 = p_start inverted_period
  ∧ ¬ (state_at_200 ∈ Analyze.states_in_period [state_at_200] inverted_period)
  ∧ ¬ (request_at_200
       ∈ Analyze.requests_in_period [request_at_200] inverted_period)
  ∧ ¬ (request_at_200 ∈ ad_requests [request_at_200] inverted_period)
  ∧ ∃ d, detect WEIGHTS MUTE_THRESHOLD [state_at_200] [request_at_200] 1
           inverted_period = Ok d
         ∧ d_analytics_count d = 0.
Proof.
  split; [by vm_compute|]. split; [done|]. split; [done|].
  split; [intros H; vm_compute in H; inversion H|].
  split; [intros H; vm_compute in H; inversion H|].
  split; [intros H; vm_compute in H; inversion H|].
  eexists. split; [by vm_compute | done].
Qed.

(** C10, amended: for an ad period that starts no later than it ends,
    an event whose timestamp is the start or the end of the period is
    inside the period, for the player states and the requests of the
    analysis and for the ad-related requests of the test; and when the
    second ad period starts no earlier than the first one ends, an
    ad-related request whose timestamp is the end of the first ad period,
    where the content period begins, is counted both in the counts of
    that ad period and in the counts of the content period. *)
Theorem boundary_events_inside (player_states : list player_state)
    (network_requests : list request) (p0 p1 : period) (rest : list period)
    (s : player_state) (r : request) :
  p_start p0 ≤ p_end p0 →
  p_end p0 ≤ p_start p1 →
  s ∈ player_states →
  r ∈ network_requests →
  (s_timestamp s = p_start p0 ∨ s_timestamp s = p_end p0
     → s ∈ Analyze.states_in_period player_states p0)
  ∧ (r_timestamp r = p_start p0 ∨ r_timestamp r = p_end p0
     → r ∈ Analyze.requests_in_period network_requests p0
       ∧ (isAdRelated r = Some true → r ∈ ad_requests network_requests p0))
  ∧ (r_timestamp r = p_end p0 → isAdRelated r = Some true →
     r ∈ ad_requests network_requests p0
     ∧ r ∈ ad_related_between network_requests (p_end p0) (p_start p1)
     ∧ ∃ d c,
         detect WEIGHTS MUTE_THRESHOLD player_states network_requests 1 p0 = Ok d
         ∧ content_period_test WEIGHTS MUTE_THRESHOLD network_requests (p0 :: p1 :: rest)
           = Ok (Some c)
         ∧ (str_in "mediatailor" (url r) = true →
            1 ≤ d_mediatailor_count d ∧ 1 ≤ c_mediatailor_count c)
         ∧ (str_in "omtrdc.net" (url r) = true →
            1 ≤ d_analytics_count d ∧ 1 ≤ c_analytics_count c)).
Proof.
  intros Hp0 Hgap Hs Hr.
  assert (Hin : r_timestamp r = p_start p0 ∨ r_timestamp r = p_end p0 →
                isAdRelated r = Some true → r ∈ ad_requests network_requests p0).
  { intros Ht Had. apply elem_of_List_filter. split; [done|].
    rewrite Had. simpl. rewrite andb_true_r.
    by apply (in_period_boundary p0). }
  split; [|split].
  - intros Ht. apply elem_of_List_filter. split; [done|].
    by apply in_period_boundary.
  - intros Ht. split; [|by apply Hin].
    apply elem_of_List_filter. split; [done|]. by apply in_period_boundary.
  - intros Ht Had.
    assert (Hgap_in : r ∈ ad_related_between network_requests (p_end p0) (p_start p1)).
    { apply elem_of_List_filter. split; [done|].
      rewrite Had, Ht. simpl. rewrite andb_true_r.
      apply andb_true_iff. rewrite !Z.leb_le. lia. }
    split; [apply Hin; auto|]. split; [done|].
    do 2 eexists. split; [apply detect_WEIGHTS|].
    split; [apply content_period_test_WEIGHTS|]. simpl.
    rewrite <- !sum_1_if_ad_related_between.
    split; intros Hu; split;
      (eapply sum_1_if_pos; [|exact Hu]); first [apply Hin; auto | done].
Qed.

Lemma boundary_events_inside_witness :
  ∃ d c,
    detect WEIGHTS MUTE_THRESHOLD [PlayerState 20 None] [boundary_request] 1
      (Period 10 20 10) = Ok d
    ∧ content_period_test WEIGHTS MUTE_THRESHOLD [boundary_request] two_periods
      = Ok (Some c)
    ∧ (str_in "omtrdc.net" (url boundary_request) = true →
       1 ≤ d_analytics_count d ∧ 1 ≤ c_analytics_count c).
Proof.
  destruct (boundary_events_inside [PlayerState 20 None] [boundary_request]
              (Period 10 20 10) (Period 50 70 20) []
              (PlayerState 20 None) boundary_request)
    as (_ & _ & H).
  - simpl. lia.
  - simpl. lia.
  - by left.
  - by left.
  - destruct H as (_ & _ & d & c & Hd & Hc & _ & Ha); [reflexivity | reflexivity |].
    by exists d, c.
Defined.

(** ** Claims about the state machine *)

Lemma step_spec (cfg : thresholds) (st : mute_state) (x : sample) :
  match step cfg st x with
  | (st', Some t) => t_from t = st ∧ t_to t = st' ∧ st' ≠ st
  | (st', None) => st' = st
  end.
Proof.
  unfold step. destruct st.
  - by destruct (muteThreshold cfg <=? score x).
  - by destruct (score x <? unmuteThreshold cfg).
Qed.

Lemma run_alternates (cfg : thresholds) (xs : list sample) : ∀ st,
  alternates_from st (run cfg st xs).2.
Proof.
  induction xs as [|x xs IH]; intros st; simpl; [done|].
  pose proof (step_spec cfg st x) as Hstep.
  destruct (step cfg st x) as [st' [t|]].
  - destruct Hstep as (Hf & Ht & Hne).
    specialize (IH st'). destruct (run cfg st' xs) as [final rest].
    simpl in *. subst st'. by rewrite Hf.
  - subst st'. specialize (IH st).
    by destruct (run cfg st xs) as [final rest].
Qed.

Lemma alternates_from_lookup (ts : list transition) : ∀ st,
  alternates_from st ts →
  (∀ t, t ∈ ts → t_from t ≠ t_to t)
  ∧ (∀ i t t', ts !! i = Some t → ts !! S i = Some t' →
               t_from t' = t_to t ∧ t_to t' = t_from t).
Proof.
  induction ts as [|t0 ts IH]; intros st Halt.
  - split; [intros t Ht; by apply not_elem_of_nil in Ht | done].
  - destruct Halt as (Hf & Hne & Hrest).
    destruct (IH _ Hrest) as [IH1 IH2]. split.
    + intros t [->|Ht]%elem_of_cons; [congruence | by apply IH1].
    + intros [|i] t t' Hi Hi'; simpl in *; [|by eapply IH2].
      destruct ts as [|t1 ts]; [done|].
      injection Hi as ->. injection Hi' as ->.
      destruct Hrest as (Hf1 & Hne1 & _).
      split; [done|].
      destruct (t_to t'), (t_to t), (t_from t); congruence.
Qed.

(** C9: whatever the thresholds and whatever the sequence of scores fed
    to the state machine from its initial state, no recorded transition
    stays in its state (no [MUTED → MUTED], no [UNMUTED → UNMUTED]), and
    of two transitions recorded one after the other the second leads back
    to the state the first left: the recorded transitions alternate. *)
Theorem transitions_alternate (cfg : thresholds) (xs : list sample) :
  let recorded := (run cfg initial xs).2 in
  (∀ t, t ∈ recorded → t_from t ≠ t_to t)
  ∧ (∀ i t t', recorded !! i = Some t → recorded !! S i = Some t' →
               t_from t' = t_to t ∧ t_to t' = t_from t).
Proof.
  intros recorded.
  apply (alternates_from_lookup recorded initial), run_alternates.
Qed.

Example run_three_scores :
  run (Thresholds 50 30) initial
    [Sample 0 105 ["network-ad-detected"]; Sample 1 80 []; Sample 2 45 [];
     Sample 3 0 []; Sample 4 0 []]
  = (UNMUTED, [Transition UNMUTED MUTED 0 105 ["network-ad-detected"];
               Transition MUTED UNMUTED 3 0 []]).
Proof. reflexivity. Qed.

(** * Further properties of the scripts *)

(** ** Loops that collect one result per element *)

Lemma for_each_collect {A B : Type} (f : A → result B) (l : list A) :
  ∀ acc : list B,
  match for_each l (λ acc x, y ← f x; mret (acc ++ [y])) acc with
  | Ok r => ∃ ys, Forall2 (λ x y, f x = Ok y) l ys ∧ r = acc ++ ys
  | Raise e => ∃ x, x ∈ l ∧ f x = Raise e
  end.
Proof.
  induction l as [|x l IH]; intros acc; simpl.
  - exists []. split; [constructor | by rewrite app_nil_r].
  - destruct (f x) as [y|e] eqn:Hx; simpl.
    + specialize (IH (acc ++ [y])).
      destruct (for_each l _ (acc ++ [y])) as [r|e].
      * destruct IH as (ys & Hys & ->). exists (y :: ys).
        split; [by constructor | by rewrite <- app_assoc].
      * destruct IH as (x' & Hin & Hx'). exists x'. split; [by right | done].
    + exists x. split; [by left | done].
Qed.

Lemma enumerate_lookup {A : Type} (l : list A) (start : Z) (k : nat) :
  enumerate l start !! k = (λ x, (start + Z.of_nat k, x)) <$> l !! k.
Proof. unfold enumerate. by rewrite list_lookup_imap. Qed.

Lemma enumerate_elem_of {A : Type} (l : list A) (start idx : Z) (x : A) :
  (idx, x) ∈ enumerate l start → x ∈ l.
Proof.
  intros [k Hk]%list_elem_of_lookup. rewrite enumerate_lookup in Hk.
  destruct (l !! k) as [y|] eqn:Hy; [|done].
  simpl in Hk. simplify_eq. by eapply list_elem_of_lookup_2.
Qed.

(** ** The detection test for any weight table *)

Lemma detect_eq (weights : gmap string Z) (mute_threshold : Z)
    (player_states : list player_state) (network_requests : list request)
    (idx : Z) (p : period) :
  detect weights mute_threshold player_states network_requests idx p =
    '(confidence, signals) ← ad_confidence weights (network_signal network_requests p);
    mret {| d_idx := idx;
            d_mediatailor_count :=
              count_requests network_requests (p_start p) (p_end p) "mediatailor";
            d_analytics_count :=
              count_requests network_requests (p_start p) (p_end p) "omtrdc.net";
            d_has_network_signal := network_signal network_requests p;
            d_confidence := confidence;
            d_signals := signals;
            d_would_mute := mute_threshold <=? confidence |}.
Proof.
  unfold detect, mediatailor_count, analytics_count, ad_requests, network_signal.
  by rewrite !sum_1_if_ad_related_between.
Qed.

Lemma detect_no_signal (weights : gmap string Z) (mute_threshold : Z)
    (player_states : list player_state) (network_requests : list request)
    (idx : Z) (p : period) :
  network_signal network_requests p = false →
  ∃ d, detect weights mute_threshold player_states network_requests idx p = Ok d.
Proof. intros H. rewrite detect_eq, H. by eexists. Qed.

Lemma detect_cases (weights : gmap string Z) (mute_threshold : Z)
    (player_states : list player_state) (network_requests : list request)
    (idx : Z) (p : period) :
  is_Some (weights !! "NETWORK_AD_DETECTED") →
  is_Some (weights !! "PLAYER_CONTROLS_HIDDEN") →
  match detect weights mute_threshold player_states network_requests idx p with
  | Ok d => True
  | Raise e =>
      e = KeyError "BACK_TO_LIVE_HIDDEN"
      ∧ weights !! "BACK_TO_LIVE_HIDDEN" = None
      ∧ network_signal network_requests p = true
  end.
Proof.
  intros [wn Hn] [wp Hp]. rewrite detect_eq.
  destruct (network_signal network_requests p); [|done].
  unfold ad_confidence, subscript. rewrite Hn, Hp. simpl.
  by destruct (weights !! "BACK_TO_LIVE_HIDDEN").
Qed.

Lemma content_period_test_cases (weights : gmap string Z) (mute_threshold : Z)
    (network_requests : list request) (periods : list period) :
  is_Some (weights !! "NETWORK_AD_DETECTED") →
  ∃ c, content_period_test weights mute_threshold network_requests periods = Ok c
       ∧ (c = None ↔ (length periods < 2)%nat).
Proof.
  intros [wn Hn]. unfold content_period_test.
  destruct periods as [|p0 [|p1 rest]]; simpl.
  - eexists. split; [done|]. split; [lia | done].
  - eexists. split; [done|]. split; [lia | done].
  - unfold content_confidence, subscript. rewrite Hn.
    destruct (_ || _); simpl; eexists; (split; [done|]); split; (done || lia).
Qed.

Lemma bind_Ok {A B : Type} (x : A) (f : A → result B) : (Ok x ≫= f) = f x.
Proof. reflexivity. Qed.

Lemma heading_cases (p : period) :
  (heading p = Ok tt ∧ duration_fits p)
  ∨ (heading p = Raise OverflowError ∧ ¬ duration_fits p).
Proof.
  unfold heading, truediv, duration_fits. change (Z.abs 1000) with 1000.
  destruct (Z.leb_spec (float_overflow * 1000) (Z.abs (p_duration p)));
    [right | left]; split; (done || lia).
Qed.

Lemma period_step_eq (detections : list detection) (p : period)
    (step : result detection) :
  (heading p ≫= λ _, step ≫= λ d, mret (detections ++ [d]))
  = ((heading p ≫= λ _, step) ≫= λ d, mret (detections ++ [d])).
Proof. by destruct (heading p) as [[]|]. Qed.

(** How the examination of one ad period ends. *)
Lemma period_step_cases (weights : gmap string Z) (mute_threshold : Z)
    (player_states : list player_state) (network_requests : list request)
    (idx : Z) (p : period) :
  is_Some (weights !! "NETWORK_AD_DETECTED") →
  is_Some (weights !! "PLAYER_CONTROLS_HIDDEN") →
  match heading p ≫= λ _,
          detect weights mute_threshold player_states network_requests idx p with
  | Ok d =>
      duration_fits p
      ∧ detect weights mute_threshold player_states network_requests idx p = Ok d
  | Raise e =>
      (e = OverflowError ∧ ¬ duration_fits p)
      ∨ (e = KeyError "BACK_TO_LIVE_HIDDEN"
         ∧ weights !! "BACK_TO_LIVE_HIDDEN" = None
         ∧ network_signal network_requests p = true)
  end.
Proof.
  intros Hn Hp.
  destruct (heading_cases p) as [[-> Hfit]|[-> Hfit]]; [|by left].
  rewrite bind_Ok.
  pose proof (detect_cases weights mute_threshold player_states network_requests
                idx p Hn Hp) as Hc.
  destruct (detect _ _ _ _ _ _) as [d|e]; [done | by right].
Qed.

(** How a run of the test ends, by the weights the table has. *)
Lemma test_nbc_detection_cases (weights : gmap string Z) (mute_threshold : Z)
    (player_states : list player_state) (network_requests : list request)
    (markers : list marker) :
  let run := test_nbc_detection weights mute_threshold player_states
               network_requests markers in
  match weights !! "NETWORK_AD_DETECTED", weights !! "PLAYER_CONTROLS_HIDDEN" with
  | None, _ => run = Raise (KeyError "NETWORK_AD_DETECTED")
  | Some _, None => run = Raise (KeyError "PLAYER_CONTROLS_HIDDEN")
  | Some _, Some _ =>
      match run with
      | Ok _ =>
          (∀ p, p ∈ pair_up markers → duration_fits p)
          ∧ (is_Some (weights !! "BACK_TO_LIVE_HIDDEN")
             ∨ ∀ p, p ∈ pair_up markers →
                    network_signal network_requests p = false)
      | Raise e =>
          (e = OverflowError
           ∧ ∃ p, p ∈ pair_up markers ∧ ¬ duration_fits p)
          ∨ (e = KeyError "BACK_TO_LIVE_HIDDEN"
             ∧ weights !! "BACK_TO_LIVE_HIDDEN" = None
             ∧ ∃ p, p ∈ pair_up markers
                    ∧ network_signal network_requests p = true)
      end
  end.
Proof.
  intros run. subst run. unfold test_nbc_detection.
  rewrite ad_periods_pair_up, bind_Ok. unfold subscript.
  destruct (weights !! "NETWORK_AD_DETECTED") as [wn|] eqn:Hn; [|done].
  destruct (weights !! "PLAYER_CONTROLS_HIDDEN") as [wp|] eqn:Hp; [|done].
  rewrite !bind_Ok.
  rewrite (for_each_ext _ _
    (λ acc x,
       y ← (λ x, heading x.2 ≫= λ _,
                   detect weights mute_threshold player_states
                     network_requests x.1 x.2) x;
       mret (acc ++ [y])))
    by (intros acc [idx p] _; apply period_step_eq).
  pose proof (for_each_collect
    (λ x, heading x.2 ≫= λ _,
            detect weights mute_threshold player_states network_requests x.1 x.2)
    (enumerate (pair_up markers) 1) []) as Hloop.
  assert (Hstep := λ idx p,
    period_step_cases weights mute_threshold player_states network_requests
      idx p (ex_intro _ wn Hn) (ex_intro _ wp Hp)).
  destruct (for_each _ _ []) as [detections|e].
  - rewrite bind_Ok.
    destruct (content_period_test_cases weights mute_threshold network_requests
                (pair_up markers)) as (c & -> & _); [by eexists|].
    rewrite !bind_Ok.
    destruct Hloop as (ys & Hall & _).
    assert (Hok : ∀ p, p ∈ pair_up markers →
      duration_fits p
      ∧ ∃ idx d, detect weights mute_threshold player_states network_requests
                   idx p = Ok d).
    { intros p [k Hk]%list_elem_of_lookup.
      assert (Hx : enumerate (pair_up markers) 1 !! k = Some (1 + Z.of_nat k, p))
        by (by rewrite enumerate_lookup, Hk).
      destruct (Forall2_lookup_l _ _ _ _ _ Hall Hx) as (d & _ & Hd). simpl in Hd.
      specialize (Hstep (1 + Z.of_nat k) p). rewrite Hd in Hstep.
      destruct Hstep as [Hfit Hdet]. split; [done|]. by eexists _, _. }
    split; [intros p Hin; by apply Hok|].
    destruct (weights !! "BACK_TO_LIVE_HIDDEN") as [wb|] eqn:Hb; [by left; eexists|].
    right. intros p Hin. destruct (Hok p Hin) as (_ & idx & d & Hd).
    destruct (network_signal network_requests p) eqn:Hs; [|done].
    rewrite detect_eq, Hs in Hd. unfold ad_confidence, subscript in Hd.
    rewrite Hn, Hp, Hb in Hd. done.
  - destruct Hloop as ([idx p] & Hin & Hd). simpl in Hd.
    specialize (Hstep idx p). rewrite Hd in Hstep.
    apply enumerate_elem_of in Hin.
    destruct Hstep as [[-> Hfit]|(-> & Hb & Hs)].
    + left. split; [done|]. by exists p.
    + right. split; [done|]. split; [done|]. by exists p.
Qed.

(** X1: a run of the detection test ends without exception exactly when
    the weight table has the weights of the network signal and of the
    hidden controls, which the configuration printout reads before any
    period is examined, the duration of every ad period is small enough
    for the float division of its heading, and the table has the weight
    of the hidden back-to-live button or no ad period has an active
    network signal. *)
Theorem test_nbc_detection_succeeds_iff (weights : gmap string Z)
    (mute_threshold : Z) (player_states : list player_state)
    (network_requests : list request) (markers : list marker) :
  (∃ r, test_nbc_detection weights mute_threshold player_states
          network_requests markers = Ok r)
  ↔ is_Some (weights !! "NETWORK_AD_DETECTED")
    ∧ is_Some (weights !! "PLAYER_CONTROLS_HIDDEN")
    ∧ (∀ periods p, ad_periods markers = Ok periods → p ∈ periods →
                    duration_fits p)
    ∧ (is_Some (weights !! "BACK_TO_LIVE_HIDDEN")
       ∨ ∀ periods p, ad_periods markers = Ok periods → p ∈ periods →
                      network_signal network_requests p = false).
Proof.
  pose proof (test_nbc_detection_cases weights mute_threshold player_states
                network_requests markers) as H. simpl in H.
  destruct (weights !! "NETWORK_AD_DETECTED") as [wn|];
    [|rewrite H; split; [by intros [? ?] | by intros [[? ?] _]]].
  destruct (weights !! "PLAYER_CONTROLS_HIDDEN") as [wp|];
    [|rewrite H; split; [by intros [? ?] | by intros (_ & [? ?] & _)]].
  destruct (test_nbc_detection _ _ _ _ _) as [r|e].
  - split; [|by eexists]. intros _. split; [by eexists|]. split; [by eexists|].
    destruct H as [Hfit Hsig]. split.
    + intros periods p Hp. rewrite ad_periods_pair_up in Hp. simplify_eq.
      apply Hfit.
    + destruct Hsig as [Hb|Hno]; [by left|]. right.
      intros periods p Hp. rewrite ad_periods_pair_up in Hp. simplify_eq.
      apply Hno.
  - split; [by intros [? ?]|]. intros (_ & _ & Hfit & Hsig). exfalso.
    destruct H as [(_ & p & Hp & Hno)|(_ & Hb & p & Hp & Hs)].
    + apply Hno, (Hfit (pair_up markers) p); [apply ad_periods_pair_up | done].
    + destruct Hsig as [[? Hb']|Hno]; [congruence|].
      rewrite (Hno (pair_up markers) p) in Hs; [done | | done].
      apply ad_periods_pair_up.
Qed.

(** X2: a run of the detection test can end with two kinds of
    exception only: the [KeyError] of one of the three weights it reads,
    for a weight the table lacks, and the [OverflowError] of the heading
    of an ad period whose duration is too large for the float division.
    It never ends with an [IndexError], whatever the number of markers. *)
Theorem test_nbc_detection_raises (weights : gmap string Z)
    (mute_threshold : Z) (player_states : list player_state)
    (network_requests : list request) (markers : list marker) (e : exn) :
  test_nbc_detection weights mute_threshold player_states network_requests markers
    = Raise e →
  (∃ key, key ∈ weights_read ∧ e = KeyError key ∧ weights !! key = None)
  ∨ (e = OverflowError
     ∧ ∃ periods p, ad_periods markers = Ok periods ∧ p ∈ periods
                    ∧ ¬ duration_fits p).
Proof.
  intros He.
  pose proof (test_nbc_detection_cases weights mute_threshold player_states
                network_requests markers) as H. simpl in H.
  destruct (weights !! "NETWORK_AD_DETECTED") as [wn|] eqn:Hn.
  - destruct (weights !! "PLAYER_CONTROLS_HIDDEN") as [wp|] eqn:Hp.
    + rewrite He in H. destruct H as [(-> & p & Hin & Hfit)|(-> & Hb & _)].
      * right. split; [done|]. exists (pair_up markers), p.
        split; [apply ad_periods_pair_up | done].
      * left. exists "BACK_TO_LIVE_HIDDEN". split; [set_solver | done].
    + rewrite H in He. simplify_eq.
      left. exists "PLAYER_CONTROLS_HIDDEN". split; [set_solver | done].
  - rewrite H in He. simplify_eq.
    left. exists "NETWORK_AD_DETECTED". split; [set_solver | done].
Qed.

Lemma test_nbc_detection_raises_witness :
  test_nbc_detection WEIGHTS MUTE_THRESHOLD [] [] huge_markers
    = Raise OverflowError
  ∧ ((∃ key, key ∈ weights_read ∧ OverflowError = KeyError key
             ∧ WEIGHTS !! key = None)
     ∨ (OverflowError = OverflowError
        ∧ ∃ periods p, ad_periods huge_markers = Ok periods ∧ p ∈ periods
                       ∧ ¬ duration_fits p)).
Proof.
  split; [vm_compute; reflexivity|].
  apply (test_nbc_detection_raises WEIGHTS MUTE_THRESHOLD [] [] huge_markers).
  vm_compute. reflexivity.
Defined.

(** X3: with a table that has the three weights it reads, and ad
    periods whose durations are small enough for the float division of
    their headings, the test returns one detection per ad period, in
    order and numbered from 1; the detection of a period carries the
    network signal of the period, has as confidence the sum of the three
    weights when the signal is active and 0 when it is not, and would
    mute when that confidence reaches the threshold; a content check is
    made exactly when there are two ad periods or more. *)
Theorem test_nbc_detection_result (weights : gmap string Z)
    (mute_threshold : Z) (player_states : list player_state)
    (network_requests : list request) (markers : list marker) (wn wp wb : Z) :
  weights !! "NETWORK_AD_DETECTED" = Some wn →
  weights !! "PLAYER_CONTROLS_HIDDEN" = Some wp →
  weights !! "BACK_TO_LIVE_HIDDEN" = Some wb →
  (∀ periods, ad_periods markers = Ok periods → Forall duration_fits periods) →
  ∃ periods detections content,
    ad_periods markers = Ok periods
    ∧ test_nbc_detection weights mute_threshold player_states network_requests
        markers = Ok (detections, content)
    ∧ length detections = length periods
    ∧ (∀ k p, periods !! k = Some p →
         ∃ d, detections !! k = Some d
              ∧ d_idx d = Z.of_nat k + 1
              ∧ d_has_network_signal d = network_signal network_requests p
              ∧ d_confidence d
                = (if network_signal network_requests p then wn + wp + wb else 0)
              ∧ d_would_mute d = (mute_threshold <=? d_confidence d))
    ∧ (content = None ↔ (length periods < 2)%nat).
Proof.
  intros Hn Hp Hb Hfits. exists (pair_up markers).
  specialize (Hfits (pair_up markers) (ad_periods_pair_up markers)).
  rewrite Forall_forall in Hfits.
  unfold test_nbc_detection.
  rewrite ad_periods_pair_up, bind_Ok. unfold subscript at 1 2.
  rewrite Hn, Hp, !bind_Ok.
  rewrite (for_each_ext _ _
    (λ acc x,
       y ← (λ x, heading x.2 ≫= λ _,
                   detect weights mute_threshold player_states
                     network_requests x.1 x.2) x;
       mret (acc ++ [y])))
    by (intros acc [idx p] _; apply period_step_eq).
  pose proof (for_each_collect
    (λ x, heading x.2 ≫= λ _,
            detect weights mute_threshold player_states network_requests x.1 x.2)
    (enumerate (pair_up markers) 1) []) as Hloop.
  assert (Hdetect : ∀ idx p, p ∈ pair_up markers →
    (heading p ≫= λ _,
       detect weights mute_threshold player_states network_requests idx p)
    = Ok {| d_idx := idx;
            d_mediatailor_count :=
              count_requests network_requests (p_start p) (p_end p) "mediatailor";
            d_analytics_count :=
              count_requests network_requests (p_start p) (p_end p) "omtrdc.net";
            d_has_network_signal := network_signal network_requests p;
            d_confidence :=
              if network_signal network_requests p then wn + wp + wb else 0;
            d_signals :=
              if network_signal network_requests p
              then ["network-ad-detected"; "controls-hidden"; "back-to-live-hidden"]
              else [];
            d_would_mute :=
              mute_threshold <=?
                (if network_signal network_requests p then wn + wp + wb else 0) |}).
  { intros idx p Hin.
    destruct (heading_cases p) as [[-> _]|[_ Hno]];
      [|exfalso; by apply Hno, Hfits].
    rewrite bind_Ok, detect_eq. unfold ad_confidence, subscript.
    rewrite Hn, Hp, Hb. by destruct (network_signal network_requests p). }
  destruct (for_each _ _ []) as [detections|e].
  - destruct Hloop as (ys & Hall & ->). rewrite bind_Ok.
    destruct (content_period_test_cases weights mute_threshold network_requests
                (pair_up markers)) as (c & -> & Hc); [by eexists|].
    rewrite bind_Ok. unfold subscript. rewrite Hn, bind_Ok.
    exists ys, c. split; [done|]. split; [done|].
    split; [|split; [|done]].
    + rewrite <- (Forall2_length _ _ _ Hall). unfold enumerate.
      by rewrite length_imap.
    + intros k p Hk.
      assert (Hx : enumerate (pair_up markers) 1 !! k = Some (1 + Z.of_nat k, p))
        by (by rewrite enumerate_lookup, Hk).
      destruct (Forall2_lookup_l _ _ _ _ _ Hall Hx) as (d & Hd & Hfd).
      simpl in Hfd.
      rewrite Hdetect in Hfd by (by eapply list_elem_of_lookup_2).
      simplify_eq.
      eexists. split; [done|]. simpl. repeat split. lia.
  - destruct Hloop as ([idx p] & Hin & Hd). simpl in Hd.
    apply enumerate_elem_of in Hin. by rewrite Hdetect in Hd.
Qed.

Lemma test_nbc_detection_result_witness :
  ∃ periods detections content,
    ad_periods window_markers = Ok periods
    ∧ test_nbc_detection WEIGHTS MUTE_THRESHOLD [] six_analytics window_markers
      = Ok (detections, content)
    ∧ length detections = length periods
    ∧ (∀ k p, periods !! k = Some p →
         ∃ d, detections !! k = Some d
              ∧ d_idx d = Z.of_nat k + 1
              ∧ d_has_network_signal d = network_signal six_analytics p
              ∧ d_confidence d
                = (if network_signal six_analytics p then 45 + 35 + 25 else 0)
              ∧ d_would_mute d = (MUTE_THRESHOLD <=? d_confidence d))
    ∧ (content = None ↔ (length periods < 2)%nat).
Proof.
  apply (test_nbc_detection_result WEIGHTS MUTE_THRESHOLD [] six_analytics
           window_markers 45 35 25).
  - vm_compute. reflexivity.
  - vm_compute. reflexivity.
  - vm_compute. reflexivity.
  - intros periods H. vm_compute in H. injection H as <-.
    apply Forall_cons. split; [vm_compute; reflexivity|].
    apply Forall_cons. split; [vm_compute; reflexivity|].
    apply Forall_nil_2.
Defined.

Example test_nbc_detection_window_markers :
  test_nbc_detection WEIGHTS MUTE_THRESHOLD [] six_analytics window_markers
  = Ok ([Detection 1 0 6 true 105
           ["network-ad-detected"; "controls-hidden"; "back-to-live-hidden"] true;
         Detection 2 0 0 false 0 [] false],
        Some (ContentCheck 200 300 0 0 false 0 true)).
Proof. vm_compute. reflexivity. Qed.

(** ** What the detection test does not read *)

Lemma subscript_insert_ne (weights : gmap string Z) (key k : string) (v : Z) :
  key ≠ k → subscript (<[key:=v]> weights) k = subscript weights k.
Proof. intros H. unfold subscript. by rewrite lookup_insert_ne. Qed.

(** X4: a weight other than the three the test reads has no effect on
    a run: setting it, to any value, leaves the result as it was. The
    weight of the hidden progress bar, which the table of the script
    holds, is such a weight. *)
Theorem test_nbc_detection_unread_weight (weights : gmap string Z)
    (mute_threshold : Z) (player_states : list player_state)
    (network_requests : list request) (markers : list marker)
    (key : string) (v : Z) :
  key ∉ weights_read →
  test_nbc_detection (<[key:=v]> weights) mute_threshold player_states
    network_requests markers
  = test_nbc_detection weights mute_threshold player_states
      network_requests markers.
Proof.
  intros Hkey.
  assert (Hn : key ≠ "NETWORK_AD_DETECTED") by (intros ->; apply Hkey; set_solver).
  assert (Hp : key ≠ "PLAYER_CONTROLS_HIDDEN") by (intros ->; apply Hkey; set_solver).
  assert (Hb : key ≠ "BACK_TO_LIVE_HIDDEN") by (intros ->; apply Hkey; set_solver).
  unfold test_nbc_detection, content_period_test, content_confidence.
  rewrite !subscript_insert_ne by done.
  destruct (ad_periods markers) as [periods|e]; [|done]. rewrite !bind_Ok.
  destruct (subscript weights "NETWORK_AD_DETECTED") as [wn|]; [|done].
  rewrite !bind_Ok.
  destruct (subscript weights "PLAYER_CONTROLS_HIDDEN") as [wp|]; [|done].
  rewrite !bind_Ok.
  rewrite (for_each_ext _ _
    (λ detections '(idx, p),
       _ ← heading p;
       d ← detect weights mute_threshold player_states network_requests idx p;
       mret (detections ++ [d]))); [done|].
  intros acc [idx p] _. unfold detect, ad_confidence.
  by rewrite !subscript_insert_ne by done.
Qed.

Lemma test_nbc_detection_unread_weight_witness :
  test_nbc_detection (<["PROGRESS_BAR_HIDDEN":=1000]> WEIGHTS) MUTE_THRESHOLD []
    six_analytics four_markers
  = test_nbc_detection WEIGHTS MUTE_THRESHOLD [] six_analytics four_markers.
Proof.
  apply (test_nbc_detection_unread_weight WEIGHTS MUTE_THRESHOLD [] six_analytics
           four_markers "PROGRESS_BAR_HIDDEN" 1000).
  unfold weights_read. intros H.
  repeat (apply elem_of_cons in H as [H|H]; [discriminate H|]).
  by apply not_elem_of_nil in H.
Defined.

Lemma List_filter_filter {A : Type} (f g : A → bool) (l : list A) :
  (∀ x, f x = true → g x = true) →
  List.filter f (List.filter g l) = List.filter f l.
Proof.
  intros Hfg. induction l as [|x l IH]; [done|]. simpl.
  destruct (g x) eqn:Hg; simpl.
  - by rewrite IH.
  - destruct (f x) eqn:Hf; [|done]. rewrite Hfg in Hg; done.
Qed.

Lemma ad_related_between_filter (network_requests : list request)
    (start end_ : Z) :
  ad_related_between
    (List.filter (λ r, truthy (isAdRelated r)) network_requests) start end_
  = ad_related_between network_requests start end_.
Proof.
  unfold ad_related_between. apply List_filter_filter.
  intros r H. by apply andb_true_iff in H as [_ H].
Qed.

(** X5: the detection test looks at nothing but the ad-related
    requests: the player states have no effect on a run, and neither have
    the requests whose [isAdRelated] is false or absent. *)
Theorem test_nbc_detection_ad_related_only (weights : gmap string Z)
    (mute_threshold : Z) (player_states player_states' : list player_state)
    (network_requests : list request) (markers : list marker) :
  test_nbc_detection weights mute_threshold player_states'
    (List.filter (λ r, truthy (isAdRelated r)) network_requests) markers
  = test_nbc_detection weights mute_threshold player_states
      network_requests markers.
Proof.
  unfold test_nbc_detection.
  destruct (ad_periods markers) as [periods|e]; [|done]. rewrite !bind_Ok.
  assert (Hcontent :
    content_period_test weights mute_threshold
      (List.filter (λ r, truthy (isAdRelated r)) network_requests) periods
    = content_period_test weights mute_threshold network_requests periods).
  { unfold content_period_test.
    destruct periods as [|p0 [|p1 rest]]; simpl; [done | done |].
    by rewrite !ad_related_between_filter. }
  rewrite Hcontent.
  destruct (subscript weights "NETWORK_AD_DETECTED") as [wn|]; [|done].
  rewrite !bind_Ok.
  destruct (subscript weights "PLAYER_CONTROLS_HIDDEN") as [wp|]; [|done].
  rewrite !bind_Ok.
  rewrite (for_each_ext _ _
    (λ detections '(idx, p),
       _ ← heading p;
       d ← detect weights mute_threshold player_states network_requests idx p;
       mret (detections ++ [d]))); [done|].
  intros acc [idx p] _. unfold detect, ad_requests.
  by rewrite !ad_related_between_filter.
Qed.

(** ** Edge cases of a period *)

(** X6: a period that ends before it starts, as two markers out of
    order give, contains no request: whatever the requests and whatever
    the weight table, an empty one included, its detection has both
    counts 0, no network signal, confidence 0 and no signal name. *)
Theorem detect_inverted_period (weights : gmap string Z) (mute_threshold : Z)
    (player_states : list player_state) (network_requests : list request)
    (idx : Z) (p : period) :
  p_end p < p_start p →
  detect weights mute_threshold player_states network_requests idx p
  = Ok {| d_idx := idx;
          d_mediatailor_count := 0;
          d_analytics_count := 0;
          d_has_network_signal := false;
          d_confidence := 0;
          d_signals := [];
          d_would_mute := mute_threshold <=? 0 |}.
Proof.
  intros Hinv. unfold detect, ad_requests.
  assert (Hempty : ad_related_between network_requests (p_start p) (p_end p) = []).
  { unfold ad_related_between.
    induction network_requests as [|r l IH]; [done|]. simpl.
    destruct (Z.leb_spec (p_start p) (r_timestamp r)),
             (Z.leb_spec (r_timestamp r) (p_end p)); simpl; try done; lia. }
  by rewrite Hempty.
Qed.

Lemma detect_inverted_period_witness :
  detect ∅ MUTE_THRESHOLD [] six_analytics 1 (Period 200 100 (-100))
  = Ok {| d_idx := 1;
          d_mediatailor_count := 0;
          d_analytics_count := 0;
          d_has_network_signal := false;
          d_confidence := 0;
          d_signals := [];
          d_would_mute := MUTE_THRESHOLD <=? 0 |}.
Proof.
  apply (detect_inverted_period ∅ MUTE_THRESHOLD [] six_analytics 1
           (Period 200 100 (-100))).
  simpl. lia.
Defined.

(** X7: with a positive mute threshold, the content check reports a
    false positive (content muted) exactly when the network signal of
    the content period is active and the weight of the network signal
    reaches the threshold. Under the weights of the script, where that
    weight is 45 and the threshold 50, it reports none, whatever the
    requests. *)
Theorem content_false_positive_iff (weights : gmap string Z)
    (mute_threshold : Z) (network_requests : list request)
    (p0 p1 : period) (rest : list period) (wn : Z) :
  weights !! "NETWORK_AD_DETECTED" = Some wn →
  0 < mute_threshold →
  ∃ c, content_period_test weights mute_threshold network_requests
         (p0 :: p1 :: rest) = Ok (Some c)
     ∧ c_confidence c = (if c_has_network_signal c then wn else 0)
     ∧ (c_not_muted c = false
        ↔ c_has_network_signal c = true ∧ mute_threshold ≤ wn).
Proof.
  intros Hn Hthr. unfold content_period_test, content_confidence, subscript.
  rewrite bool_decide_true by (simpl; lia). simpl. rewrite Hn.
  destruct (_ || _); simpl; eexists; (split; [done|]); simpl;
    (split; [done|]); rewrite Z.ltb_ge; split; try lia; try (by intros [? ?]).
Qed.

Lemma content_false_positive_iff_witness :
  ∃ c, content_period_test WEIGHTS MUTE_THRESHOLD one_mediatailor_in_gap
         (Period 10 20 10 :: Period 50 70 20 :: []) = Ok (Some c)
     ∧ c_confidence c = (if c_has_network_signal c then 45 else 0)
     ∧ (c_not_muted c = false
        ↔ c_has_network_signal c = true ∧ MUTE_THRESHOLD ≤ 45).
Proof.
  apply (content_false_positive_iff WEIGHTS MUTE_THRESHOLD one_mediatailor_in_gap
           (Period 10 20 10) (Period 50 70 20) [] 45).
  - vm_compute. reflexivity.
  - reflexivity.
Defined.

(** ** More requests never lower a detection *)

Lemma count_requests_mono (requests requests' : list request)
    (start end_ : Z) (needle : string) :
  requests ⊆+ requests' →
  count_requests requests start end_ needle
  ≤ count_requests requests' start end_ needle.
Proof.
  intros [k Hk]%submseteq_Permutation. unfold count_requests.
  rewrite Hk, filter_app, length_app. lia.
Qed.

(** X8: with a table without negative weights that has the three
    weights the test reads, adding requests to the recording, anywhere
    in it, never lowers a count of an ad period, never turns its network
    signal off, never lowers its confidence and never turns a mute into
    a no-mute. *)
Theorem detect_monotone (weights : gmap string Z) (mute_threshold : Z)
    (player_states : list player_state)
    (network_requests network_requests' : list request) (idx : Z) (p : period) :
  nonnegative weights →
  (∀ key, key ∈ weights_read → is_Some (weights !! key)) →
  network_requests ⊆+ network_requests' →
  ∃ d d',
    detect weights mute_threshold player_states network_requests idx p = Ok d
    ∧ detect weights mute_threshold player_states network_requests' idx p = Ok d'
    ∧ d_mediatailor_count d ≤ d_mediatailor_count d'
    ∧ d_analytics_count d ≤ d_analytics_count d'
    ∧ (d_has_network_signal d = true → d_has_network_signal d' = true)
    ∧ d_confidence d ≤ d_confidence d'
    ∧ (d_would_mute d = true → d_would_mute d' = true).
Proof.
  intros Hnn Hkeys Hsub.
  destruct (Hkeys "NETWORK_AD_DETECTED") as [wn Hn]; [set_solver|].
  destruct (Hkeys "PLAYER_CONTROLS_HIDDEN") as [wp Hp]; [set_solver|].
  destruct (Hkeys "BACK_TO_LIVE_HIDDEN") as [wb Hb]; [set_solver|].
  pose proof (Hnn _ _ Hn). pose proof (Hnn _ _ Hp). pose proof (Hnn _ _ Hb).
  simpl in *.
  pose proof (count_requests_mono _ _ (p_start p) (p_end p) "mediatailor" Hsub) as Hm.
  pose proof (count_requests_mono _ _ (p_start p) (p_end p) "omtrdc.net" Hsub) as Ha.
  assert (Hsig : network_signal network_requests p = true →
                 network_signal network_requests' p = true).
  { unfold network_signal. rewrite !orb_true_iff, !Z.ltb_lt. lia. }
  rewrite !detect_eq. unfold ad_confidence, subscript. rewrite Hn, Hp, Hb.
  destruct (network_signal network_requests p) eqn:Hs.
  - rewrite (Hsig eq_refl). do 2 eexists.
    split; [done|]. split; [done|]. simpl. repeat split; (done || lia).
  - destruct (network_signal network_requests' p); do 2 eexists;
      (split; [done|]); (split; [done|]); simpl;
      repeat split; try done; try lia; rewrite !Z.leb_le; lia.
Qed.

Lemma detect_monotone_witness :
  ∃ d d',
    detect WEIGHTS MUTE_THRESHOLD [] [] 1 (Period 100 200 100) = Ok d
    ∧ detect WEIGHTS MUTE_THRESHOLD [] six_analytics 1 (Period 100 200 100) = Ok d'
    ∧ d_mediatailor_count d ≤ d_mediatailor_count d'
    ∧ d_analytics_count d ≤ d_analytics_count d'
    ∧ (d_has_network_signal d = true → d_has_network_signal d' = true)
    ∧ d_confidence d ≤ d_confidence d'
    ∧ (d_would_mute d = true → d_would_mute d' = true).
Proof.
  apply (detect_monotone WEIGHTS MUTE_THRESHOLD [] [] six_analytics 1
           (Period 100 200 100)).
  - apply nonnegative_WEIGHTS.
  - intros key H. unfold weights_read in H.
    repeat (apply elem_of_cons in H as [->|H]; [by eexists|]).
    by apply not_elem_of_nil in H.
  - apply submseteq_nil_l.
Defined.

(** ** The sampled player states *)

Lemma range_0_lookup (n step j : nat) :
  (0 < step)%nat →
  range 0 n step !! j = if decide (j * step < n)%nat then Some (j * step)%nat else None.
Proof.
  intros Hstep. unfold range. rewrite list_lookup_fmap.
  replace (n - 0 + (step - 1))%nat with (n + (step - 1))%nat by lia.
  case_decide as Hj.
  - rewrite lookup_seq_lt; [done|].
    apply Nat.lt_le_trans with (S j); [lia|].
    apply Nat.div_le_lower_bound; nia.
  - rewrite lookup_seq_ge; [done|].
    assert ((n + (step - 1)) / step < S j)%nat; [|lia].
    apply Nat.Div0.div_lt_upper_bound; nia.
Qed.

Lemma omap_lookup_all {A : Type} (l : list A) (indices : list nat) :
  (∀ i, i ∈ indices → is_Some (l !! i)) →
  ∀ j, omap (λ i, l !! i) indices !! j = indices !! j ≫= (λ i, l !! i).
Proof.
  induction indices as [|i indices IH]; intros Hall j; [done|].
  destruct (Hall i) as [x Hx]; [by left|].
  change (omap (λ i, l !! i) (i :: indices))
    with (match l !! i with
          | Some x => x :: omap (λ i, l !! i) indices
          | None => omap (λ i, l !! i) indices
          end).
  rewrite Hx. destruct j as [|j]; simpl; [done|].
  apply IH. intros i' Hi'. apply Hall. by right.
Qed.

Lemma slice_step_lookup {A : Type} (l : list A) (step j : nat) :
  (0 < step)%nat → slice_step l step !! j = l !! (j * step)%nat.
Proof.
  intros Hstep. unfold slice_step. rewrite omap_lookup_all.
  - rewrite range_0_lookup by done. case_decide as Hj; [done|].
    simpl. symmetry. apply lookup_ge_None. lia.
  - intros i [j' Hj']%list_elem_of_lookup.
    rewrite range_0_lookup in Hj' by done. case_decide; [|done].
    simplify_eq. by apply lookup_lt_is_Some.
Qed.

Lemma slice_step_length {A : Type} (l : list A) (step : nat) :
  (0 < step)%nat →
  length (slice_step l step) = ((length l + (step - 1)) / step)%nat.
Proof.
  intros Hstep.
  assert (H : ∀ j, is_Some (slice_step l step !! j)
                   ↔ (j < (length l + (step - 1)) / step)%nat).
  { intros j. rewrite slice_step_lookup, lookup_lt_is_Some by done. split.
    - intros Hj. apply Nat.lt_le_trans with (S j); [lia|].
      apply Nat.div_le_lower_bound; nia.
    - intros Hj. destruct (decide (j * step < length l)%nat) as [|Hn]; [done|].
      exfalso. assert ((length l + (step - 1)) / step < S j)%nat; [|lia].
      apply Nat.Div0.div_lt_upper_bound; nia. }
  destruct (Nat.lt_trichotomy (length (slice_step l step))
              ((length l + (step - 1)) / step)) as [Hlt|[Heq|Hgt]]; [|done|].
  - apply H, lookup_lt_is_Some in Hlt. lia.
  - apply lookup_lt_is_Some, H in Hgt. lia.
Qed.

Lemma samples_spec (states_in_period : list player_state) :
  length (samples states_in_period) = (5 `min` length states_in_period)%nat
  ∧ ∀ i, (i < 5)%nat →
         samples states_in_period !! i
         = states_in_period
             !! (i * (1 `max` (length states_in_period / 5)))%nat.
Proof.
  destruct states_in_period as [|s l]; [by split|].
  change (samples (s :: l))
    with (take 5 (slice_step (s :: l) (1 `max` (length (s :: l) / 5)))).
  generalize (s :: l). clear s l. intros states_in_period.
  set (n := length states_in_period).
  assert (Hk : (0 < 1 `max` (n / 5))%nat) by lia.
  split.
  - rewrite length_take, slice_step_length by done. fold n.
    destruct (decide (n < 5)%nat) as [Hn|Hn].
    + rewrite (Nat.div_small n 5) by lia.
      change (1 `max` 0)%nat with 1%nat.
      replace (n + (1 - 1))%nat with n by lia. by rewrite Nat.div_1_r.
    + assert (5 ≤ (n + (1 `max` (n / 5) - 1)) / (1 `max` (n / 5)))%nat; [|lia].
      apply Nat.div_le_lower_bound; [lia|].
      pose proof (Nat.Div0.mul_div_le n 5).
      destruct (Nat.max_spec 1 (n / 5)) as [[_ ->]|[_ ->]]; lia.
  - intros i Hi. rewrite lookup_take_lt by done.
    by rewrite slice_step_lookup.
Qed.

(** X9: the printout of an ad period samples [min(5, n)] of its [n]
    player states, and sample [i] is the state at index
    [i * max(1, n // 5)]: the first five states when there are fewer
    than ten, every [(n // 5)]-th state otherwise, from the first state
    on. *)
Theorem samples_indices (states_in_period : list player_state) :
  length (samples states_in_period) = (5 `min` length states_in_period)%nat
  ∧ ∀ i, (i < 5)%nat →
         samples states_in_period !! i
         = states_in_period
             !! (i * (1 `max` (length states_in_period / 5)))%nat.
Proof. apply samples_spec. Qed.

(** ** Substrings and pieces of a URL *)

Lemma prefix_trans (a : string) : ∀ b c,
  String.prefix a b = true → String.prefix b c = true → String.prefix a c = true.
Proof.
  induction a as [|x a IH]; intros [|y b] [|z c]; simpl; try done.
  destruct (ascii_dec x y) as [->|]; [|done].
  destruct (ascii_dec y z) as [->|]; [|done].
  apply IH.
Qed.

Lemma prefix_nil_r (a : string) : String.prefix a "" = true → a = "".
Proof. by destruct a. Qed.

Lemma str_in_eq (sub s : string) :
  str_in sub s =
    if String.prefix sub s then true
    else match s with
         | EmptyString => false
         | String _ s' => str_in sub s'
         end.
Proof. by destruct s. Qed.

Lemma str_in_cons (sub s : string) (c : ascii) :
  str_in sub s = true → str_in sub (String c s) = true.
Proof.
  intros H. rewrite str_in_eq, H. by destruct (String.prefix sub (String c s)).
Qed.

Lemma str_in_prefix (sub s : string) :
  String.prefix sub s = true → str_in sub s = true.
Proof. intros H. by rewrite str_in_eq, H. Qed.

Lemma str_in_inv (sub s : string) :
  str_in sub s = true →
  String.prefix sub s = true
  ∨ ∃ c s', s = String c s' ∧ str_in sub s' = true.
Proof.
  rewrite str_in_eq.
  destruct (String.prefix sub s); [by left|].
  destruct s as [|c s']; [done|]. intros H. right. by exists c, s'.
Qed.

Lemma split_head_prefix (sep : ascii) (s : string) :
  ∃ p ps, split sep s = p :: ps ∧ String.prefix p s = true.
Proof.
  induction s as [|c s IH]; simpl.
  - by exists "", [].
  - destruct (Ascii.eqb c sep); [by eexists _, _|].
    destruct IH as (p & ps & -> & Hp). exists (String c p), ps.
    split; [done|]. simpl. by destruct (ascii_dec c c).
Qed.

(** A substring of a piece of [s.split(sep)] is a substring of [s]. *)
Lemma split_piece_str_in (sep : ascii) (sub : string) : ∀ s part,
  part ∈ split sep s → str_in sub part = true → str_in sub s = true.
Proof.
  induction s as [|c s IH]; intros part Hin Hsub; simpl in Hin.
  - by apply list_elem_of_singleton in Hin as ->.
  - destruct (Ascii.eqb c sep).
    + apply elem_of_cons in Hin as [->|Hin].
      * apply str_in_inv in Hsub as [Hp|(? & ? & ? & _)]; [|done].
        apply prefix_nil_r in Hp as ->. done.
      * apply str_in_cons. by apply (IH part).
    + destruct (split_head_prefix sep s) as (p & ps & Hs & Hp).
      rewrite Hs in Hin, IH.
      apply elem_of_cons in Hin as [->|Hin].
      * apply str_in_inv in Hsub as [Hpre|(c' & s' & [= <- <-] & Hsub)].
        -- apply str_in_prefix, (prefix_trans _ (String c p)); [done|].
           simpl. by destruct (ascii_dec c c).
        -- apply str_in_cons, (IH p); [by left | done].
      * apply str_in_cons, (IH part); [by right | done].
Qed.

Lemma split_no_sep (sep : ascii) (a : string) :
  str_in (String sep "") a = false → split sep a = [a].
Proof.
  induction a as [|c a IH]; [done|]. simpl.
  destruct (ascii_dec sep c) as [->|Hne].
  - by destruct a.
  - intros H. rewrite IH by done.
    destruct (Ascii.eqb_spec c sep) as [->|]; done.
Qed.

Lemma split_app (sep : ascii) (a s : string) :
  str_in (String sep "") a = false →
  split sep (a +:+ String sep s) = a :: split sep s.
Proof.
  induction a as [|c a IH]; simpl.
  - intros _. by rewrite Ascii.eqb_refl.
  - destruct (ascii_dec sep c) as [->|Hne]; [by destruct a|].
    intros H. rewrite IH by done.
    destruct (Ascii.eqb_spec c sep) as [->|]; done.
Qed.

(** ** The domain of a request *)

Lemma domain_cases (url : string) :
  (str_in "mediatailor" url = true ∧ domain url = Ok "mediatailor.amazonaws.com")
  ∨ (str_in "mediatailor" url = false ∧ str_in "omtrdc.net" url = true
     ∧ domain url = Ok "nbcume.hb.omtrdc.net")
  ∨ (str_in "mediatailor" url = false ∧ str_in "omtrdc.net" url = false
     ∧ ∃ d, domain url = Ok d ∧ (d = url ∨ d ∈ split "/" url)).
Proof.
  unfold domain.
  destruct (str_in "mediatailor" url); [by left|].
  destruct (str_in "omtrdc.net" url); [right; by left|].
  right; right. split; [done|]. split; [done|].
  case_bool_decide as Hlen; [|by eexists; split; [|left]].
  unfold getitem.
  destruct (lookup_lt_is_Some_2 (split "/" url) 2 Hlen) as [d Hd].
  rewrite Hd. exists d. split; [done|]. right. by eapply list_elem_of_lookup_2.
Qed.

Lemma domain_Ok (url : string) : ∃ d, domain url = Ok d.
Proof.
  destruct (domain_cases url) as [[_ H]|[(_ & _ & H)|(_ & _ & d & H & _)]];
    by eexists.
Qed.

Lemma domain_mediatailor (url : string) :
  domain url = Ok "mediatailor.amazonaws.com" ↔ str_in "mediatailor" url = true.
Proof.
  destruct (domain_cases url) as [[Hm H]|[(Hm & Ho & H)|(Hm & Ho & d & H & Hd)]];
    rewrite H, Hm; split; try done.
  intros [= ->]. destruct Hd as [<-|Hin]; [done|].
  assert (str_in "mediatailor" url = true); [|congruence].
  by apply (split_piece_str_in "/" _ url "mediatailor.amazonaws.com").
Qed.

Lemma domain_omtrdc (url : string) :
  domain url = Ok "nbcume.hb.omtrdc.net"
  ↔ str_in "mediatailor" url = false ∧ str_in "omtrdc.net" url = true.
Proof.
  destruct (domain_cases url) as [[Hm H]|[(Hm & Ho & H)|(Hm & Ho & d & H & Hd)]];
    rewrite H, Hm, ?Ho; split; try done; try (by intros [? ?]).
  intros [= ->]. destruct Hd as [<-|Hin]; [done|].
  assert (str_in "omtrdc.net" url = true); [|congruence].
  by apply (split_piece_str_in "/" _ url "nbcume.hb.omtrdc.net").
Qed.

(** X10: for a URL [scheme//host/path] whose scheme and host hold no
    slash and which mentions neither "mediatailor" nor "omtrdc.net", the
    domain a request is filed under is the host. *)
Theorem domain_host (scheme host path : string) :
  str_in "/" scheme = false →
  str_in "/" host = false →
  str_in "mediatailor" (scheme +:+ "//" +:+ host +:+ "/" +:+ path) = false →
  str_in "omtrdc.net" (scheme +:+ "//" +:+ host +:+ "/" +:+ path) = false →
  domain (scheme +:+ "//" +:+ host +:+ "/" +:+ path) = Ok host.
Proof.
  intros Hs Hh Hm Ho. unfold domain. rewrite Hm, Ho.
  change ("//" +:+ host +:+ "/" +:+ path)
    with (String "/" ("" +:+ String "/" (host +:+ String "/" path))).
  rewrite !split_app by done.
  rewrite bool_decide_true; [done|].
  destruct (split_head_prefix "/" path) as (p & ps & -> & _). simpl. lia.
Qed.

Lemma domain_host_witness :
  domain ("https:" +:+ "//" +:+ "ads.example.com" +:+ "/" +:+ "v1/pixel.gif")
  = Ok "ads.example.com".
Proof.
  apply (domain_host "https:" "ads.example.com" "v1/pixel.gif");
    vm_compute; reflexivity.
Defined.

(** X11: a URL with fewer than two slashes that mentions neither
    "mediatailor" nor "omtrdc.net" is filed under the URL itself. *)
Theorem domain_without_two_slashes (a b url : string) :
  str_in "/" a = false →
  str_in "/" b = false →
  url = a ∨ url = a +:+ "/" +:+ b →
  str_in "mediatailor" url = false →
  str_in "omtrdc.net" url = false →
  domain url = Ok url.
Proof.
  intros Ha Hb Hurl Hm Ho. unfold domain. rewrite Hm, Ho.
  rewrite bool_decide_false; [done|].
  destruct Hurl as [->| ->].
  - rewrite split_no_sep by done. simpl. lia.
  - change ("/" +:+ b) with (String "/" b).
    rewrite split_app, split_no_sep by done. simpl. lia.
Qed.

Lemma domain_without_two_slashes_witness :
  domain ("ads.example.com" +:+ "/" +:+ "pixel.gif")
  = Ok ("ads.example.com" +:+ "/" +:+ "pixel.gif").
Proof.
  apply (domain_without_two_slashes "ads.example.com" "pixel.gif");
    first [vm_compute; reflexivity | by right].
Defined.

(** ** The dict of the ad networks *)

Lemma dict_get_set (d : odict) (key key' : string) (v default : Z) :
  dict_get (dict_set d key v) key' default
  = if decide (key = key') then v else dict_get d key' default.
Proof.
  induction d as [|[k v'] d IH]; simpl.
  - destruct (String.eqb_spec key key'); by case_decide.
  - destruct (String.eqb_spec k key) as [->|Hk]; simpl.
    + destruct (String.eqb_spec key key'); by case_decide.
    + rewrite IH. destruct (String.eqb_spec k key') as [->|]; [|done].
      by case_decide.
Qed.

Lemma dict_set_keys (d : odict) (key : string) (v : Z) :
  (dict_set d key v).*1 = if decide (key ∈ d.*1) then d.*1 else d.*1 ++ [key].
Proof.
  induction d as [|[k v'] d IH].
  - by rewrite decide_False by apply not_elem_of_nil.
  - change (dict_set ((k, v') :: d) key v)
      with (if String.eqb k key then (k, v) :: d else (k, v') :: dict_set d key v).
    rewrite !fmap_cons.
    destruct (String.eqb_spec k key) as [->|Hk].
    + rewrite decide_True by (by left). done.
    + rewrite fmap_cons, IH. destruct (decide (key ∈ d.*1)) as [Hin|Hin].
      * rewrite decide_True by (by right). done.
      * rewrite decide_False; [done|].
        intros [?|?]%elem_of_cons; simpl in *; [congruence | done].
Qed.

Lemma dict_set_NoDup (d : odict) (key : string) (v : Z) :
  NoDup d.*1 → NoDup (dict_set d key v).*1.
Proof.
  intros Hd. rewrite dict_set_keys. case_decide as Hin; [done|].
  apply NoDup_app. split; [done|]. split; [|apply NoDup_singleton].
  intros x Hx ->%list_elem_of_singleton. done.
Qed.

Lemma dict_set_elem_of (d : odict) (key : string) (v : Z) (x : string * Z) :
  x ∈ dict_set d key v → x ∈ d ∨ x = (key, v).
Proof.
  induction d as [|[k v'] d IH]; simpl.
  - intros ->%list_elem_of_singleton. by right.
  - destruct (String.eqb_spec k key) as [->|Hk].
    + intros [->|H]%elem_of_cons; [by right | left; by right].
    + intros [->|H]%elem_of_cons; [left; by left|].
      destruct (IH H) as [?|?]; [left; by right | by right].
Qed.

Lemma sum_counts_set (d : odict) (key : string) (v : Z) :
  sum_counts (dict_set d key v) = sum_counts d - dict_get d key 0 + v.
Proof.
  unfold sum_counts. induction d as [|[k v'] d IH]; simpl; [lia|].
  destruct (String.eqb k key); simpl; [lia | rewrite IH; lia].
Qed.

Lemma dict_get_elem_of (d : odict) (key : string) (v default : Z) :
  NoDup d.*1 → (key, v) ∈ d → dict_get d key default = v.
Proof.
  induction d as [|[k v'] d IH]; simpl; [by intros _ ?%not_elem_of_nil|].
  intros [Hk Hd]%NoDup_cons [[= -> ->]|Hin]%elem_of_cons.
  - by rewrite String.eqb_refl.
  - destruct (String.eqb_spec k key) as [->|]; [|by apply IH].
    exfalso. apply Hk. by apply (list_elem_of_fmap_2 fst _ (key, v)).
Qed.

Lemma dict_get_positive (d : odict) (key : string) :
  (∀ x, x ∈ d → 1 ≤ x.2) → 0 ≤ dict_get d key 0.
Proof.
  induction d as [|[k v'] d IH]; simpl; [lia|]. intros H.
  destruct (String.eqb k key).
  - specialize (H (k, v') ltac:(by left)). simpl in H. lia.
  - apply IH. intros x Hx. apply H. by right.
Qed.

Lemma ad_networks_loop (requests : list request) : ∀ acc : odict,
  NoDup acc.*1 →
  (∀ x, x ∈ acc → 1 ≤ x.2) →
  ∃ networks,
    for_each requests
      (λ ad_networks req,
         if truthy (isAdRelated req) then
           d ← domain (url req);
           mret (dict_set ad_networks d (dict_get ad_networks d 0 + 1))
         else mret ad_networks)
      acc = Ok networks
    ∧ NoDup networks.*1
    ∧ (∀ x, x ∈ networks → 1 ≤ x.2)
    ∧ (∀ d, dict_get networks d 0 = dict_get acc d 0 + filed_under requests d)
    ∧ sum_counts networks = sum_counts acc + ad_related_count requests.
Proof.
  induction requests as [|r requests IH]; intros acc Hnd Hpos.
  - exists acc. simpl. unfold filed_under, ad_related_count. simpl.
    repeat split; try done; intros; lia.
  - simpl.
    assert (Hcount : ∀ d,
      filed_under (r :: requests) d
      = (if decide (isAdRelated r = Some true ∧ domain (url r) = Ok d)
         then 1 else 0) + filed_under requests d).
    { intros d. unfold filed_under. rewrite filter_cons.
      case_decide; simpl; lia. }
    assert (Htotal :
      ad_related_count (r :: requests)
      = (if decide (isAdRelated r = Some true) then 1 else 0)
        + ad_related_count requests).
    { unfold ad_related_count. rewrite filter_cons. case_decide; simpl; lia. }
    rewrite Htotal. setoid_rewrite Hcount. clear Hcount Htotal.
    destruct (isAdRelated r) as [[]|] eqn:Had; cbn [truthy]; rewrite ?bind_Ok.
    + destruct (domain_Ok (url r)) as [d Hd]. rewrite Hd, !bind_Ok.
      destruct (IH (dict_set acc d (dict_get acc d 0 + 1)))
        as (networks & -> & Hnd' & Hpos' & Hget & Hsum).
      { by apply dict_set_NoDup. }
      { intros x [Hx| ->]%dict_set_elem_of; [by apply Hpos|].
        pose proof (dict_get_positive acc d Hpos). simpl. lia. }
      exists networks. split; [done|]. split; [done|]. split; [done|]. split.
      * intros d'. rewrite Hget, dict_get_set.
        destruct (decide (d = d')) as [->|Hne].
        -- rewrite decide_True by done. lia.
        -- rewrite decide_False by (intros [_ ?]; congruence). lia.
      * rewrite Hsum, sum_counts_set. rewrite decide_True by done. lia.
    + destruct (IH acc Hnd Hpos) as (networks & -> & Hnd' & Hpos' & Hget & Hsum).
      exists networks. split; [done|]. split; [done|]. split; [done|]. split.
      * intros d'. rewrite Hget.
        rewrite decide_False by (by intros [? _]). lia.
      * rewrite Hsum. rewrite decide_False by done. lia.
    + destruct (IH acc Hnd Hpos) as (networks & -> & Hnd' & Hpos' & Hget & Hsum).
      exists networks. split; [done|]. split; [done|]. split; [done|]. split.
      * intros d'. rewrite Hget.
        rewrite decide_False by (by intros [? _]). lia.
      * rewrite Hsum. rewrite decide_False by done. lia.
Qed.

Lemma ad_networks_spec (requests : list request) :
  ∃ networks,
    ad_networks requests = Ok networks
    ∧ NoDup networks.*1
    ∧ (∀ x, x ∈ networks → 1 ≤ x.2)
    ∧ (∀ d, dict_get networks d 0 = filed_under requests d)
    ∧ sum_counts networks = ad_related_count requests.
Proof.
  destruct (ad_networks_loop requests [])
    as (networks & H & Hnd & Hpos & Hget & Hsum).
  { constructor. }
  { by intros x ?%not_elem_of_nil. }
  exists networks. split; [done|]. split; [done|]. split; [done|].
  split; [intros d; by rewrite Hget | by rewrite Hsum].
Qed.

(** X12: the dict of ad networks of a list of requests is built without
    exception; its domains are distinct, the count of a domain is the
    number of ad-related requests filed under it, a domain without such a
    request is absent, and no entry has a count below 1. *)
Theorem ad_networks_counts (requests : list request) :
  ∃ networks,
    ad_networks requests = Ok networks
    ∧ NoDup networks.*1
    ∧ (∀ d, dict_get networks d 0 = filed_under requests d)
    ∧ (∀ d c, (d, c) ∈ networks → 1 ≤ c ∧ c = filed_under requests d).
Proof.
  destruct (ad_networks_spec requests) as (networks & H & Hnd & Hpos & Hget & _).
  exists networks. split; [done|]. split; [done|]. split; [done|].
  intros d c Hin. split; [apply (Hpos _ Hin)|].
  rewrite <- (dict_get_elem_of networks d c 0 Hnd Hin). by rewrite Hget.
Qed.

(** X13: every ad-related request of the list is counted once in the
    dict of ad networks: the counts add up to the number of ad-related
    requests, whatever their URLs. *)
Theorem ad_networks_total (requests : list request) :
  ∃ networks,
    ad_networks requests = Ok networks
    ∧ sum_counts networks = ad_related_count requests.
Proof.
  destruct (ad_networks_spec requests) as (networks & H & _ & _ & _ & Hsum).
  by exists networks.
Qed.

Lemma filter_List_filter {A : Type} (P : A → Prop) `{!∀ x, Decision (P x)}
    (b : A → bool) (l : list A) :
  filter P (List.filter b l) = filter (λ x, b x = true ∧ P x) l.
Proof.
  induction l as [|x l IH]; [done|]. simpl. rewrite filter_cons.
  destruct (b x) eqn:Hb.
  - rewrite filter_cons, IH.
    destruct (decide (P x)).
    + by rewrite decide_True.
    + by rewrite decide_False by (by intros [_ ?]).
  - by rewrite IH, decide_False by (by intros [? _]).
Qed.

Lemma length_filter_impl {A : Type} (P Q : A → Prop)
    `{!∀ x, Decision (P x), !∀ x, Decision (Q x)} (l : list A) :
  (∀ x, P x → Q x) → (length (filter P l) ≤ length (filter Q l))%nat.
Proof.
  intros HPQ. induction l as [|x l IH]; [done|]. rewrite !filter_cons.
  destruct (decide (P x)) as [HP|HP].
  - rewrite decide_True by auto. simpl. lia.
  - destruct (decide (Q x)); simpl; lia.
Qed.

Lemma filter_ext_elem_of {A : Type} (P Q : A → Prop)
    `{!∀ x, Decision (P x), !∀ x, Decision (Q x)} (l : list A) :
  (∀ x, x ∈ l → P x ↔ Q x) → filter P l = filter Q l.
Proof.
  induction l as [|x l IH]; intros Hext; [done|]. rewrite !filter_cons.
  rewrite IH by (intros y Hy; apply Hext; by right).
  destruct (decide (P x)) as [HP|HP].
  - by rewrite decide_True by (by apply Hext; [left|]).
  - by rewrite decide_False by (intros HQ; apply HP, Hext; [by left | done]).
Qed.

Lemma in_period_true (p : period) (t : Z) :
  in_period p t = true ↔ p_start p ≤ t ≤ p_end p.
Proof. unfold in_period. rewrite andb_true_iff, !Z.leb_le. done. Qed.

(** X14: the two scripts agree on the MediaTailor requests of a period:
    the count the analysis files under "mediatailor.amazonaws.com" is the
    [mediatailor_count] of the detection test. For the analytics requests
    the count filed under "nbcume.hb.omtrdc.net" is at most the
    [analytics_count] of the test, which also counts the requests that
    mention "mediatailor" as well, and equals it when no request mentions
    both. *)
Theorem ad_networks_agree_with_test (network_requests : list request) (p : period) :
  ∃ networks,
    ad_networks (Analyze.requests_in_period network_requests p) = Ok networks
    ∧ dict_get networks "mediatailor.amazonaws.com" 0
      = mediatailor_count (ad_requests network_requests p)
    ∧ dict_get networks "nbcume.hb.omtrdc.net" 0
      ≤ analytics_count (ad_requests network_requests p)
    ∧ ((∀ r, r ∈ network_requests → str_in "mediatailor" (url r) = true →
             str_in "omtrdc.net" (url r) = false) →
       dict_get networks "nbcume.hb.omtrdc.net" 0
       = analytics_count (ad_requests network_requests p)).
Proof.
  destruct (ad_networks_spec (Analyze.requests_in_period network_requests p))
    as (networks & H & _ & _ & Hget & _).
  exists networks. split; [done|]. rewrite !Hget.
  unfold mediatailor_count, analytics_count, ad_requests.
  rewrite !sum_1_if_ad_related_between.
  unfold filed_under, count_requests, Analyze.requests_in_period.
  rewrite !filter_List_filter. split; [|split].
  - f_equal. f_equal. apply list_filter_iff. intros r.
    rewrite in_period_true, domain_mediatailor. tauto.
  - apply inj_le, length_filter_impl. intros r.
    rewrite in_period_true, domain_omtrdc. tauto.
  - intros Hboth. f_equal. f_equal. apply filter_ext_elem_of.
    intros r Hr. rewrite in_period_true, domain_omtrdc.
    specialize (Hboth r Hr).
    destruct (str_in "mediatailor" (url r)); [|tauto].
    rewrite Hboth by done. split; intros (? & ? & ?); [tauto | done].
Qed.

(** ** The domains printed *)

Lemma insert_desc_Permutation (x : string * Z) (l : odict) :
  insert_desc x l ≡ₚ x :: l.
Proof.
  induction l as [|y l IH]; simpl; [done|].
  destruct (x.2 <? y.2); [|done].
  rewrite IH. apply Permutation_swap.
Qed.

Lemma sorted_desc_Permutation (l : odict) : sorted_desc l ≡ₚ l.
Proof.
  induction l as [|x l IH]; [done|]. unfold sorted_desc in *. simpl.
  by rewrite insert_desc_Permutation, IH.
Qed.

Lemma insert_desc_sorted (x : string * Z) (l : odict) :
  StronglySorted count_ge l → StronglySorted count_ge (insert_desc x l).
Proof.
  induction 1 as [|y l Hl IH Hy]; simpl; [by repeat constructor|].
  destruct (Z.ltb_spec x.2 y.2) as [Hlt|Hge].
  - constructor; [done|].
    rewrite insert_desc_Permutation. constructor; [|done].
    unfold count_ge. lia.
  - constructor; [by constructor|]. constructor; [done|].
    eapply Forall_impl; [exact Hy|]. unfold count_ge. intros z Hz. lia.
Qed.

Lemma sorted_desc_sorted (l : odict) : StronglySorted count_ge (sorted_desc l).
Proof.
  induction l as [|x l IH]; [constructor|].
  by apply insert_desc_sorted.
Qed.

Lemma insert_desc_filter (c : Z) (x : string * Z) (l : odict) :
  filter (λ z, z.2 = c) (insert_desc x l) = filter (λ z, z.2 = c) (x :: l).
Proof.
  induction l as [|y l IH]; simpl; [done|].
  destruct (Z.ltb_spec x.2 y.2) as [Hlt|Hge]; [|done].
  rewrite (filter_cons _ y), IH, !(filter_cons _ x), !(filter_cons _ y).
  destruct (decide (y.2 = c)), (decide (x.2 = c)); try done. lia.
Qed.

Lemma sorted_desc_filter (c : Z) (l : odict) :
  filter (λ z, z.2 = c) (sorted_desc l) = filter (λ z, z.2 = c) l.
Proof.
  induction l as [|x l IH]; [done|].
  change (sorted_desc (x :: l)) with (insert_desc x (sorted_desc l)).
  by rewrite insert_desc_filter, !(filter_cons _ x), IH.
Qed.

(** X15: the domains printed for a period are the first [min(5, n)] of
    the [n] entries of the dict in an order of decreasing count: together
    with the entries left out they are the entries of the dict, no entry
    left out has a count above that of a printed one, and entries of
    equal count keep the order in which their domains were first seen. *)
Theorem top_networks_largest (networks : odict) :
  ∃ rest,
    top_networks networks ++ rest ≡ₚ networks
    ∧ length (top_networks networks) = (5 `min` length networks)%nat
    ∧ StronglySorted count_ge (top_networks networks ++ rest)
    ∧ ∀ c, filter (λ x, x.2 = c) (top_networks networks ++ rest)
           = filter (λ x, x.2 = c) networks.
Proof.
  exists (drop 5 (sorted_desc networks)). unfold top_networks.
  rewrite take_drop, length_take.
  split; [apply sorted_desc_Permutation|].
  split; [by rewrite (Permutation_length (sorted_desc_Permutation networks))|].
  split; [apply sorted_desc_sorted | intros c; apply sorted_desc_filter].
Qed.

(** ** The samples of a period *)

(** X16: the player states sampled for an ad period are player states
    of the recording whose timestamp lies inside the period, bounds
    included; there are [min(5, n)] of them when [n] states of the
    recording lie inside the period. *)
Theorem samples_inside_period (player_states : list player_state) (p : period) :
  (∀ s, s ∈ samples (Analyze.states_in_period player_states p) →
        s ∈ player_states ∧ p_start p ≤ s_timestamp s ≤ p_end p)
  ∧ length (samples (Analyze.states_in_period player_states p))
    = (5 `min` length (Analyze.states_in_period player_states p))%nat.
Proof.
  pose proof (samples_spec (Analyze.states_in_period player_states p))
    as [Hlen Hidx].
  split; [|done].
  intros s [i Hi]%list_elem_of_lookup.
  assert (i < 5)%nat as Hi5 by (apply lookup_lt_Some in Hi; lia).
  rewrite Hidx in Hi by done.
  apply list_elem_of_lookup_2, elem_of_List_filter in Hi as [Hin Hper].
  split; [done|]. by apply in_period_true.
Qed.

(** ** More on the grouping of the markers *)

Lemma pair_up_length_div (markers : list marker) :
  length (pair_up markers) = (length markers / 2)%nat.
Proof.
  apply pair_up_length.
  pose proof (Nat.div_mod_eq (length markers) 2).
  pose proof (Nat.mod_upper_bound (length markers) 2). lia.
Qed.

Lemma pair_up_timestamps (markers : list marker) : ∀ markers',
  m_timestamp <$> markers = m_timestamp <$> markers' →
  pair_up markers = pair_up markers'.
Proof.
  induction markers as [markers IH] using (induction_ltof1 _ (@length marker)).
  unfold ltof in IH. intros markers' Heq.
  destruct markers as [|m0 [|m1 rest]], markers' as [|m0' [|m1' rest']];
    simplify_eq/=; try done.
  f_equal; [congruence|]. apply IH; [simpl; lia | done].
Qed.

(** X17: the grouping of the markers ends without exception on every
    list of [n] markers and returns [n // 2] periods, none for an empty
    list or a single marker; the duration of each is its end minus its
    start. *)
Theorem ad_periods_count (markers : list marker) :
  ∃ periods,
    ad_periods markers = Ok periods
    ∧ length periods = (length markers / 2)%nat
    ∧ ∀ p, p ∈ periods → p_duration p = p_end p - p_start p.
Proof.
  exists (pair_up markers). split; [apply ad_periods_pair_up|].
  split; [apply pair_up_length_div|].
  intros p [i Hp]%list_elem_of_lookup.
  destruct (pair_up_lookup_Some _ _ _ Hp) as (m0 & m1 & _ & _ & -> & -> & ->).
  done.
Qed.

(** X18: the grouping reads the timestamps of the markers only, by
    position: two lists of markers with the same timestamps give the
    same periods, whatever their [event] labels. *)
Theorem ad_periods_ignores_events (markers markers' : list marker) :
  m_timestamp <$> markers = m_timestamp <$> markers' →
  ad_periods markers = ad_periods markers'.
Proof.
  intros H. rewrite !ad_periods_pair_up. f_equal. by apply pair_up_timestamps.
Qed.

Lemma ad_periods_ignores_events_witness :
  ad_periods [Marker 10 "ad start"; Marker 20 "ad end"]
  = ad_periods [Marker 10 "ad start"; Marker 20 "ad start"].
Proof.
  apply (ad_periods_ignores_events
           [Marker 10 "ad start"; Marker 20 "ad end"]
           [Marker 10 "ad start"; Marker 20 "ad start"]).
  reflexivity.
Defined.



